(** * Arcadia: performance analysis and progress tracking

    A shallow embedding of [src/core/performance_analyzer.py] and
    [src/core/progress_tracker.py], and the properties of the specification
    that concern them.

    Numbers.  The Python code computes on binary64 values (Python [float],
    [numpy.float64]).  The embedding keeps the special values of IEEE 754
    ([inf], [-inf], [nan]) and the rules that produce them (division by
    zero on numpy scalars, comparisons with [nan]), and computes on finite
    values with exact rationals: rounding and overflow are not modelled,
    and a zero divisor is taken as [+0.0].  The square root is the one
    operation that leaves the rationals; it is computed to a fixed number
    of binary digits and is exact on squares of rationals.

    Data.  A pandas Series of observations is the list of its values, all
    finite; under a [DatetimeIndex] it is a list of rows (timestamp,
    value).  A dict is an association list in insertion order.  A Python
    exception is the [Raise] case of a result type.  The functions of
    numpy, pandas and scipy that the two files call are modelled after the
    libraries, as far as the callers use them; the p-value of Student's t
    distribution is a parameter.

    Limits.  Where binary64 rounds, the embedding does not: the samples of
    [np.linspace] and the variance of a series are exact here, so that an
    equation between them holds of the code up to rounding only; the
    statements below keep to what rounding leaves intact, and side lemmas
    have the exact values.  [stats.linregress] is the one of scipy up to
    1.15, which raises [ValueError] on an empty sample and takes the
    correlation of a sample without variance for 0; scipy 1.16 and later
    answer such samples with [nan] results and a warning, and the
    statements below hold for both unless they say otherwise.  The dates
    of a [DatetimeIndex] are seconds from the Unix epoch, without bound:
    the [OverflowError] of [datetime] arithmetic beyond its range is not
    modelled, and a statement that the tracker raises nothing assumes the
    dates in range ([lookback_defined]). *)

From Stdlib Require Import ZArith QArith Qround Qabs String List Bool Lia Lqa.
From Stdlib Require Import Sorted.
Import ListNotations.
Open Scope Q_scope.

(** ** Floating-point values *)

Module Float.

Inductive float : Type :=
| Fin (q : Q)
| PInf
| NInf
| NaN.

Definition Qltb (a b : Q) : bool :=
  (Qnum a * QDen b <? Qnum b * QDen a)%Z.

Definition Qleb (a b : Q) : bool :=
  (Qnum a * QDen b <=? Qnum b * QDen a)%Z.

Definition Qeqb (a b : Q) : bool :=
  (Qnum a * QDen b =? Qnum b * QDen a)%Z.

(** A finite result, kept in lowest terms. *)
Definition fin (q : Q) : float := Fin (Qred q).

Definition of_Z (z : Z) : float := Fin (inject_Z z).

Definition of_nat (n : nat) : float := of_Z (Z.of_nat n).

Definition fneg (x : float) : float :=
  match x with
  | Fin q => fin (- q)
  | PInf => NInf
  | NInf => PInf
  | NaN => NaN
  end.

Definition fadd (x y : float) : float :=
  match x, y with
  | NaN, _ | _, NaN => NaN
  | Fin a, Fin b => fin (a + b)
  | PInf, NInf | NInf, PInf => NaN
  | PInf, _ | _, PInf => PInf
  | NInf, _ | _, NInf => NInf
  end.

Definition fsub (x y : float) : float := fadd x (fneg y).

(** [inf * a] for a finite [a]; [pos] tells the sign of the infinity. *)
Definition inf_times (pos : bool) (a : Q) : float :=
  if Qltb 0 a then (if pos then PInf else NInf)
  else if Qltb a 0 then (if pos then NInf else PInf)
  else NaN.

Definition fmul (x y : float) : float :=
  match x, y with
  | NaN, _ | _, NaN => NaN
  | Fin a, Fin b => fin (a * b)
  | Fin a, PInf | PInf, Fin a => inf_times true a
  | Fin a, NInf | NInf, Fin a => inf_times false a
  | PInf, PInf | NInf, NInf => PInf
  | PInf, NInf | NInf, PInf => NInf
  end.

(** Division of numpy scalars: a zero divisor gives [nan] or an infinity
    (with a warning), never an exception. *)
Definition fdiv (x y : float) : float :=
  match x, y with
  | NaN, _ | _, NaN => NaN
  | Fin a, Fin b =>
      if Qeqb b 0 then
        (if Qeqb a 0 then NaN else if Qltb 0 a then PInf else NInf)
      else fin (a / b)
  | Fin _, (PInf | NInf) => Fin 0
  | PInf, Fin b => if Qltb b 0 then NInf else PInf
  | NInf, Fin b => if Qltb b 0 then PInf else NInf
  | (PInf | NInf), (PInf | NInf) => NaN
  end.

Definition fabs (x : float) : float :=
  match x with
  | Fin q => fin (Qabs q)
  | PInf | NInf => PInf
  | NaN => NaN
  end.

(** Comparisons: every comparison with [nan] is false. *)
Definition flt (x y : float) : bool :=
  match x, y with
  | NaN, _ | _, NaN => false
  | Fin a, Fin b => Qltb a b
  | NInf, (Fin _ | PInf) => true
  | Fin _, PInf => true
  | _, _ => false
  end.

Definition fgt (x y : float) : bool := flt y x.

Definition feq (x y : float) : bool :=
  match x, y with
  | Fin a, Fin b => Qeqb a b
  | PInf, PInf | NInf, NInf => true
  | _, _ => false
  end.

(** Number of binary digits kept after the point by the square root. *)
Definition sqrt_bits : Z := 64.

(** [sqrt (a/b) = sqrt (a*b) / b], with the integer square root taken after
    scaling by [4 ^ sqrt_bits]: the root rounded down to a multiple of
    [1 / (b * 2 ^ sqrt_bits)]. *)
Definition Qsqrt (q : Q) : Q :=
  Qmake (Z.sqrt (Qnum q * QDen q * 4 ^ sqrt_bits))
        (Qden q * Z.to_pos (2 ^ sqrt_bits)).

Definition fsqrt (x : float) : float :=
  match x with
  | Fin q => if Qltb q 0 then NaN else fin (Qsqrt q)
  | PInf => PInf
  | NInf | NaN => NaN
  end.

(** The value lies in the closed interval from [lo] to [hi]. *)
Definition in_range (lo hi : Q) (x : float) : Prop :=
  match x with
  | Fin q => lo <= q /\ q <= hi
  | _ => False
  end.

End Float.
Export Float.

Declare Scope float_scope.
Delimit Scope float_scope with float.
Bind Scope float_scope with float.
Infix "+" := fadd : float_scope.
Infix "-" := fsub : float_scope.
Infix "*" := fmul : float_scope.
Infix "/" := fdiv : float_scope.
Infix "<?" := flt : float_scope.
Infix ">?" := fgt : float_scope.

(** ** Python built-ins and exceptions *)

Module Py.

Inductive exn : Type :=
| ValueError.

Inductive result (A : Type) : Type :=
| Ok (a : A)
| Raise (e : exn).
Arguments Ok {A} a.
Arguments Raise {A} e.

Definition bind {A B : Type} (r : result A) (k : A -> result B) : result B :=
  match r with
  | Ok a => k a
  | Raise e => Raise e
  end.

(** [max(a, b)]: the first argument is kept unless a later one is greater. *)
Definition max2 (a b : float) : float := if (b >? a)%float then b else a.

(** [min(a, b)]: the first argument is kept unless a later one is smaller. *)
Definition min2 (a b : float) : float := if (b <? a)%float then b else a.

Fixpoint max_from (cur : float) (l : list float) : float :=
  match l with
  | [] => cur
  | x :: l' => max_from (max2 cur x) l'
  end.

(** [max(iterable)]: raises [ValueError] on an empty iterable. *)
Definition max_iter (l : list float) : result float :=
  match l with
  | [] => Raise ValueError
  | x :: l' => Ok (max_from x l')
  end.

(** [sum(iterable)], starting from [0]. *)
Definition sum (l : list float) : float := fold_left fadd l (Fin 0).

(** [d.get(key)] on a dict kept as an association list in insertion order. *)
Fixpoint dict_get {V : Type} (d : list (string * V)) (key : string) : option V :=
  match d with
  | [] => None
  | (k, v) :: d' => if String.eqb k key then Some v else dict_get d' key
  end.

(** [d[key] = v]: a present key keeps its place, a new key goes last. *)
Fixpoint dict_set {V : Type} (d : list (string * V)) (key : string) (v : V)
  : list (string * V) :=
  match d with
  | [] => [(key, v)]
  | (k, w) :: d' =>
      if String.eqb k key then (k, v) :: d' else (k, w) :: dict_set d' key v
  end.

Definition dict_values {V : Type} (d : list (string * V)) : list V :=
  map snd d.

End Py.

Notation "x <- c ;; k" := (Py.bind c (fun x => k))
  (at level 61, c at next level, right associativity).

(** ** numpy *)

Module Numpy.

(** [np.arange(n)] as floating-point values. *)
Definition arange (n : nat) : list Q :=
  map (fun i => inject_Z (Z.of_nat i)) (seq 0 n).

(** [np.linspace(start, stop, num)] with the end point included: [num]
    samples [start + i * step], the last one set to [stop] itself.  The
    samples are exact; numpy rounds each product and each sum. *)
Definition linspace (start stop : Q) (num : nat) : list Q :=
  let div := (num - 1)%nat in
  let delta := stop - start in
  let y := arange num in
  let y :=
    if (0 <? div)%nat then
      let step := delta / inject_Z (Z.of_nat div) in
      if Qeqb step 0
      then map (fun i => i / inject_Z (Z.of_nat div) * delta) y
      else map (fun i => i * step) y
    else map (fun i => i * delta) y in
  let y := map (fun v => Qred (v + start)) y in
  if (1 <? num)%nat then removelast y ++ [stop] else y.

End Numpy.

(** ** pandas: a Series of finite observations *)

Module Pandas.

Definition Series : Type := list Q.

Fixpoint insert_sorted (x : Q) (l : list Q) : list Q :=
  match l with
  | [] => [x]
  | y :: l' => if Qleb x y then x :: l else y :: insert_sorted x l'
  end.

Definition sort (l : list Q) : list Q := fold_right insert_sorted [] l.

Definition Qsum (l : list Q) : Q := fold_left Qplus l 0.

Definition len (s : Series) : float := of_nat (length s).

(** [s.mean()]: [nan] on the empty series. *)
Definition mean (s : Series) : float :=
  match s with
  | [] => NaN
  | _ => (fin (Qsum s) / len s)%float
  end.

(** [s.var()], with one delta degree of freedom: [nan] below two values.
    It is exact, and so 0 on equal values. *)
Definition var (s : Series) : float :=
  if (length s <=? 1)%nat then NaN
  else
    let avg := Qsum s / inject_Z (Z.of_nat (length s)) in
    let sqr := map (fun v => (avg - v) * (avg - v)) s in
    (fin (Qsum sqr) / of_nat (length s - 1))%float.

(** [s.std()] *)
Definition std (s : Series) : float := fsqrt (var s).

(** [s.quantile(q)], linear interpolation between the two closest ranks;
    [nan] on the empty series. *)
Definition quantile (s : Series) (q : Q) : float :=
  match sort s with
  | [] => NaN
  | (v0 :: _) as v =>
      let n := length v in
      let pos := q * inject_Z (Z.of_nat (n - 1)) in
      let lo := Z.to_nat (Qfloor pos) in
      let hi := Nat.min (lo + 1) (n - 1) in
      let frac := pos - inject_Z (Qfloor pos) in
      let a := nth lo v v0 in
      let b := nth hi v v0 in
      fin (a + (b - a) * frac)
  end.

(** [s.median()]: the middle value, or the mean of the two middle values. *)
Definition median (s : Series) : float :=
  match sort s with
  | [] => NaN
  | (v0 :: _) as v =>
      let n := length v in
      if Nat.even n
      then fin ((nth (n / 2 - 1) v v0 + nth (n / 2) v v0) / 2)
      else Fin (nth (n / 2) v v0)
  end.

(** [s.tail(k)] *)
Definition tail (k : nat) (s : Series) : Series :=
  skipn (length s - k) s.

(** [(s < lower) | (s > upper)], element by element. *)
Definition outside (s : Series) (lower upper : float) : list bool :=
  map (fun v => (Fin v <? lower)%float || (Fin v >? upper)%float) s.

(** [s[~mask]] *)
Fixpoint drop_masked (s : Series) (mask : list bool) : Series :=
  match s, mask with
  | v :: s', m :: mask' =>
      if m then drop_masked s' mask' else v :: drop_masked s' mask'
  | _, _ => []
  end.

(** [mask.sum()] *)
Definition count_true (mask : list bool) : Z :=
  Z.of_nat (length (filter (fun b => b) mask)).

End Pandas.

(** ** scipy.stats *)

Module Scipy.

Record LinregressResult : Type := {
  slope : float;
  intercept : float;
  rvalue : float;
  pvalue : float
}.

Definition TINY : Q := 1 # (10 ^ 20).

Definition amax (v0 : Q) (l : list Q) : Q :=
  fold_left (fun m v => if Qltb m v then v else m) l v0.

Definition amin (v0 : Q) (l : list Q) : Q :=
  fold_left (fun m v => if Qltb v m then v else m) l v0.

(** Mean of the products of the deviations: an entry of
    [np.cov(x, y, bias=1)]. *)
Definition cov1 (x y : list Q) (xm ym : Q) : Q :=
  Pandas.Qsum (map (fun p => (fst p - xm) * (snd p - ym)) (combine x y))
  / inject_Z (Z.of_nat (length x)).

Section WithStudentT.

(** The two-sided p-value of Student's t distribution with [df] degrees of
    freedom at statistic [t]: scipy's own numerical routine, taken as
    given. *)
Variable student_t_pvalue : Z -> float -> float.

(** [stats.linregress(x, y)] as in scipy up to 1.15; the standard errors,
    which the callers drop, are left out. *)
Definition linregress (x y : list Q) : Py.result LinregressResult :=
  match x, y with
  | [], _ | _, [] => Py.Raise Py.ValueError
  | x0 :: _, y0 :: _ =>
      if Qeqb (amax x0 x) (amin x0 x) && (1 <? length x)%nat
      then Py.Raise Py.ValueError
      else if negb (length x =? length y)%nat
      then Py.Raise Py.ValueError
      else
        let n := length x in
        let xmean := Pandas.Qsum x / inject_Z (Z.of_nat n) in
        let ymean := Pandas.Qsum y / inject_Z (Z.of_nat n) in
        let ssxm := cov1 x x xmean xmean in
        let ssxym := cov1 x y xmean ymean in
        let ssym := cov1 y y ymean ymean in
        let r :=
          if Qeqb ssxm 0 || Qeqb ssym 0 then Fin 0
          else
            let r := (Fin ssxym / fsqrt (fin (ssxm * ssym)))%float in
            if (r >? Fin 1)%float then Fin 1
            else if (r <? Fin (-1))%float then Fin (-1)
            else r in
        let slope := (Fin ssxym / Fin ssxm)%float in
        let intercept := (Fin ymean - slope * Fin xmean)%float in
        let prob :=
          if (n =? 2)%nat then
            (if Qeqb (nth 0 y 0) (nth 1 y 0) then Fin 1 else Fin 0)
          else
            let df := (Z.of_nat n - 2)%Z in
            let t :=
              (r * fsqrt (of_Z df / ((Fin 1 - r + Fin TINY)
                                     * (Fin 1 + r + Fin TINY))))%float in
            student_t_pvalue df t in
        Py.Ok {| slope := slope; intercept := intercept;
                 rvalue := r; pvalue := prob |}
  end.

End WithStudentT.

(** [stats.percentileofscore(a, score)], kind ["rank"]. *)
Definition percentileofscore (a : list Q) (score : Q) : float :=
  let left := length (filter (fun v => Qltb v score) a) in
  let right := length (filter (fun v => Qleb v score) a) in
  let plus1 := if (left <? right)%nat then 1%nat else 0%nat in
  (of_nat (left + right + plus1) * (Fin 50 / of_nat (length a)))%float.

End Scipy.

(** ** performance_analyzer.py *)

Module PerformanceAnalyzer.

Import Pandas.

(** The analyzer object: [self.threshold_multiplier]. *)
Record t : Type := {
  threshold_multiplier : Q
}.

(** [PerformanceAnalyzer(threshold_multiplier=1.5)] *)
Definition init (threshold_multiplier : option Q) : t :=
  {| threshold_multiplier :=
       match threshold_multiplier with Some k => k | None => 3 # 2 end |}.

Record OutlierStats : Type := {
  total_outliers : Z;
  outlier_percentage : float;
  lower_bound : float;
  upper_bound : float
}.

(** [detect_outliers] (lines 27-54): the mask of the values outside
    [Q1 - k * IQR, Q3 + k * IQR] and the statistics of the outliers. *)
Definition detect_outliers (self : t) (data : Series)
  : list bool * OutlierStats :=
  let Q1 := quantile data (1 # 4) in
  let Q3 := quantile data (3 # 4) in
  let IQR := (Q3 - Q1)%float in
  let lower_bound := (Q1 - Fin (threshold_multiplier self) * IQR)%float in
  let upper_bound := (Q3 + Fin (threshold_multiplier self) * IQR)%float in
  let outliers := outside data lower_bound upper_bound in
  let stats :=
    {| total_outliers := count_true outliers;
       outlier_percentage :=
         (of_Z (count_true outliers) / len data * Fin 100)%float;
       lower_bound := lower_bound;
       upper_bound := upper_bound |} in
  (outliers, stats).

Inductive Direction : Type :=
| improving
| declining.

Inductive Strength : Type :=
| strong
| moderate
| weak.

Record TrendInfo : Type := {
  direction : Direction;
  slope : float;
  r_squared : float;
  significance : bool;
  strength : Strength
}.

Record MetricConfig : Type := {
  threshold : float;
  higher_better : bool
}.

Definition metric_configs : list (string * MetricConfig) :=
  [ ("accuracy"%string, {| threshold := Fin (-1); higher_better := true |});
    ("reaction_time"%string, {| threshold := Fin 1; higher_better := false |});
    ("decision_making"%string,
      {| threshold := Fin (-1); higher_better := true |});
    ("teamwork"%string, {| threshold := Fin (-1); higher_better := true |}) ].

(** [metric_configs.get(metric, {'threshold': -1.0, 'higher_better': True})] *)
Definition config_of (metric : string) : MetricConfig :=
  match Py.dict_get metric_configs metric with
  | Some c => c
  | None => {| threshold := Fin (-1); higher_better := true |}
  end.

Record RecentPerformance : Type := {
  recent_mean : float;
  vs_historical : float
}.

Record ImprovementAnalysis : Type := {
  needs_improvement : bool;
  z_score : float;
  recent_performance : RecentPerformance;
  suggested_target : float
}.

Definition recent_window : nat := 5.

(** [_analyze_improvement_needs] (lines 126-174). *)
Definition _analyze_improvement_needs
  (raw_data clean_data : Series) (metric : string) : ImprovementAnalysis :=
  let recent_mean := mean (tail recent_window raw_data) in
  let historical_mean := mean clean_data in
  let historical_std := std clean_data in
  let config := config_of metric in
  let z_score := ((recent_mean - historical_mean) / historical_std)%float in
  let needs_improvement :=
    if higher_better config
    then (z_score <? threshold config)%float
    else (z_score >? threshold config)%float in
  {| needs_improvement := needs_improvement;
     z_score := z_score;
     recent_performance :=
       {| recent_mean := recent_mean;
          vs_historical :=
            ((recent_mean - historical_mean) / historical_mean
             * Fin 100)%float |};
     suggested_target :=
       (historical_mean
        + (if higher_better config
           then historical_std else fneg historical_std))%float |}.

Record CurrentStats : Type := {
  current_mean : float;
  current_median : float;
  current_std : float;
  trend : TrendInfo
}.

Record CleanStats : Type := {
  clean_mean : float;
  clean_median : float;
  clean_std : float
}.

Record MetricAnalysis : Type := {
  current_stats : CurrentStats;
  outlier_stats : OutlierStats;
  clean_stats : CleanStats;
  improvement_analysis : ImprovementAnalysis
}.

Section WithStudentT.

Variable student_t_pvalue : Z -> float -> float.

(** [_calculate_trend] (lines 100-124). *)
Definition _calculate_trend (data : Series) : Py.result TrendInfo :=
  let x := Numpy.arange (length data) in
  res <- Scipy.linregress student_t_pvalue x data ;;
  let trend_strength := fabs (Scipy.rvalue res) in
  let trend_direction :=
    if (Scipy.slope res >? Fin 0)%float then improving else declining in
  Py.Ok
    {| direction := trend_direction;
       slope := Scipy.slope res;
       r_squared := (Scipy.rvalue res * Scipy.rvalue res)%float;
       significance := (Scipy.pvalue res <? Fin (5 # 100))%float;
       strength :=
         if (trend_strength >? Fin (7 # 10))%float then strong
         else if (trend_strength >? Fin (3 # 10))%float then moderate
         else weak |}.

(** The body of the loop of [analyze_performance], for one column. *)
Definition analyze_column (self : t) (data : Series) (column : string)
  : Py.result MetricAnalysis :=
  let '(outliers, outlier_stats) := detect_outliers self data in
  let clean_data := drop_masked data outliers in
  trend <- _calculate_trend data ;;
  Py.Ok
    {| current_stats :=
         {| current_mean := mean data;
            current_median := median data;
            current_std := std data;
            trend := trend |};
       outlier_stats := outlier_stats;
       clean_stats :=
         {| clean_mean := mean clean_data;
            clean_median := median clean_data;
            clean_std := std clean_data |};
       improvement_analysis :=
         _analyze_improvement_needs data clean_data column |}.

(** The loop of [analyze_performance] over the four metrics. *)
Fixpoint analyze_columns (self : t) (historical_data : list (string * Series))
  (columns : list string) (metrics : list (string * MetricAnalysis))
  : Py.result (list (string * MetricAnalysis)) :=
  match columns with
  | [] => Py.Ok metrics
  | column :: rest =>
      match Py.dict_get historical_data column with
      | Some data =>
          m <- analyze_column self data column ;;
          analyze_columns self historical_data rest
            (Py.dict_set metrics column m)
      | None => analyze_columns self historical_data rest metrics
      end
  end.

(** [analyze_performance] (lines 56-98); [historical_data] is the frame,
    one series of observations a column. *)
Definition analyze_performance (self : t)
  (historical_data : list (string * Series))
  : Py.result (list (string * MetricAnalysis)) :=
  analyze_columns self historical_data
    ["accuracy"; "reaction_time"; "decision_making"; "teamwork"]%string [].

End WithStudentT.

End PerformanceAnalyzer.

(** ** progress_tracker.py *)

Module ProgressTracker.

Import Pandas.

(** A series under a [DatetimeIndex]: rows (timestamp, value) in index
    order, timestamps counted in seconds. *)
Definition History : Type := list (Z * Q).

Definition seconds_per_day : Z := 86400.

(** [history[history.index >= cutoff_date]] *)
Definition since (history : History) (cutoff_date : Z) : History :=
  filter (fun row => (cutoff_date <=? fst row)%Z) history.

Definition values (history : History) : Series := map snd history.

(** The tracker object: [self.lookback_periods], name to days. *)
Record t : Type := {
  lookback_periods : list (string * Z)
}.

Definition default_lookback_periods : list (string * Z) :=
  [ ("short_term"%string, 7%Z);
    ("medium_term"%string, 30%Z);
    ("long_term"%string, 90%Z) ].

(** [ProgressTracker(lookback_periods=None)]: [None] and the empty dict
    both give the default periods. *)
Definition init (lookback_periods : option (list (string * Z))) : t :=
  {| lookback_periods :=
       match lookback_periods with
       | None | Some [] => default_lookback_periods
       | Some d => d
       end |}.

Record Comparison : Type := {
  average : float;
  change : float;
  z_score : float;
  percentile : float
}.

Inductive Direction : Type :=
| improving
| declining.

Record Trend : Type := {
  slope : float;
  direction : Direction;
  strength : float;
  significance : bool;
  volatility : float
}.

Record ImprovementRate : Type := {
  total_change_percent : float;
  daily_rate : float;
  weekly_rate : float;
  projected_30d : float;
  consistency : float
}.

Record Milestone : Type := {
  level : nat;
  value : Q;
  progress : float
}.

Record MilestoneTracking : Type := {
  total_progress : float;
  next_milestone : option Milestone;
  remaining_milestones : list Milestone;
  completed_milestones : list Milestone
}.

Record ProgressReport : Type := {
  current_value : Q;
  target_value : option Q;
  historical_comparison : list (string * Comparison);
  trend_analysis : list (string * Trend);
  improvement_rate : list (string * ImprovementRate);
  milestone_progress : MilestoneTracking
}.

(** The clock reading [datetime.now()] is the argument [now]: one reading
    stands for those of a whole call.  The date [datetime.now() -
    timedelta(days=days)] is computed without the bounds of [datetime]. *)
Definition cutoff (now days : Z) : Z := (now - days * seconds_per_day)%Z.

(** [_compare_with_history] (lines 79-109). *)
Definition _compare_with_history (self : t) (now : Z)
  (current_value : Q) (history : History) : list (string * Comparison) :=
  fold_left
    (fun comparisons '(period_name, days) =>
       let period_data := values (since history (cutoff now days)) in
       match period_data with
       | [] => comparisons
       | _ =>
           let period_avg := mean period_data in
           let period_std := std period_data in
           Py.dict_set comparisons period_name
             {| average := period_avg;
                change :=
                  ((Fin current_value - period_avg) / period_avg
                   * Fin 100)%float;
                z_score :=
                  if (period_std >? Fin 0)%float
                  then ((Fin current_value - period_avg) / period_std)%float
                  else Fin 0;
                percentile :=
                  Scipy.percentileofscore period_data current_value |}
       end)
    (lookback_periods self) [].

(** [_calculate_consistency] (lines 181-200). *)
Definition _calculate_consistency (data : Series) : float :=
  if (length data <? 2)%nat then Fin 100
  else
    let cv := (std data / mean data)%float in
    (Fin 100 * (Fin 1 - Py.min2 cv (Fin 1)))%float.

(** [_calculate_improvement_rate] (lines 145-179). *)
Definition _calculate_improvement_rate (self : t) (now : Z)
  (current_value : Q) (history : History)
  : list (string * ImprovementRate) :=
  fold_left
    (fun improvement_analysis '(period_name, days) =>
       let period_data := values (since history (cutoff now days)) in
       match period_data with
       | [] => improvement_analysis
       | start_value :: _ =>
           let total_change := (Fin current_value - Fin start_value)%float in
           let daily_rate := (total_change / of_Z days)%float in
           Py.dict_set improvement_analysis period_name
             {| total_change_percent :=
                  (total_change / Fin start_value * Fin 100)%float;
                daily_rate := daily_rate;
                weekly_rate := (daily_rate * Fin 7)%float;
                projected_30d :=
                  (Fin current_value + daily_rate * Fin 30)%float;
                consistency := _calculate_consistency period_data |}
       end)
    (lookback_periods self) [].

(** The milestone records of the loop of [_track_milestones]: the values
    [milestone_values[1:]], numbered from 1. *)
Definition milestones_of (current_value target_value : Q)
  (milestone_values : list Q) : list Milestone :=
  map (fun '(i, value) =>
         {| level := i;
            value := value;
            progress :=
              ((Fin value - Fin current_value)
               / (Fin target_value - Fin current_value) * Fin 100)%float |})
      (combine (seq 1 (length (List.tl milestone_values)))
               (List.tl milestone_values)).

(** The body of the loop of [_track_milestones]: a milestone that
    [current_value] has reached is completed, the first one it has not is
    the next one, and the others remain. *)
Definition track_milestone (current_value : Q)
  (tracking : MilestoneTracking) (milestone : Milestone)
  : MilestoneTracking :=
  if Qleb (value milestone) current_value then
    {| total_progress := total_progress tracking;
       next_milestone := next_milestone tracking;
       remaining_milestones := remaining_milestones tracking;
       completed_milestones := completed_milestones tracking ++ [milestone] |}
  else
    match next_milestone tracking with
    | None =>
        {| total_progress := total_progress tracking;
           next_milestone := Some milestone;
           remaining_milestones := remaining_milestones tracking;
           completed_milestones := completed_milestones tracking |}
    | Some _ =>
        {| total_progress := total_progress tracking;
           next_milestone := next_milestone tracking;
           remaining_milestones := remaining_milestones tracking ++ [milestone];
           completed_milestones := completed_milestones tracking |}
    end.

(** [_track_milestones] (lines 202-248). *)
Definition _track_milestones (current_value target_value : Q)
  (num_milestones : nat) : MilestoneTracking :=
  let milestone_tracking :=
    {| total_progress := Fin 0;
       next_milestone := None;
       remaining_milestones := [];
       completed_milestones := [] |} in
  if negb (Qeqb target_value current_value) then
    let total_progress :=
      ((Fin current_value - Fin target_value)
       / fabs (Fin target_value - Fin current_value))%float in
    let milestone_tracking :=
      {| total_progress :=
           Py.max2 (Fin 0) (Py.min2 (Fin 100) (total_progress * Fin 100)%float);
         next_milestone := None;
         remaining_milestones := [];
         completed_milestones := [] |} in
    let milestone_values :=
      Numpy.linspace current_value target_value (num_milestones + 1) in
    fold_left (track_milestone current_value)
      (milestones_of current_value target_value milestone_values)
      milestone_tracking
  else milestone_tracking.

(** The default number of milestones of [_track_milestones]. *)
Definition default_num_milestones : nat := 5.

(** The signed strength of a trend, as [_calculate_overall_progress] takes
    it. *)
Definition signed_strength (trend : Trend) : float :=
  match direction trend with
  | improving => strength trend
  | declining => fneg (strength trend)
  end.

(** The loop of [_calculate_overall_progress] over the metrics. *)
Fixpoint progress_scores_of (analyses : list ProgressReport)
  (progress_scores : list float) : Py.result (list float) :=
  match analyses with
  | [] => Py.Ok progress_scores
  | analysis :: rest =>
      let milestone_progress := total_progress (milestone_progress analysis) in
      trend_strength <-
        Py.max_iter
          (map signed_strength (Py.dict_values (trend_analysis analysis))) ;;
      progress_scores_of rest
        (progress_scores
         ++ [(milestone_progress * (Fin 1 + trend_strength))%float])
  end.

(** [_calculate_overall_progress] (lines 304-329). *)
Definition _calculate_overall_progress
  (progress_report : list (string * ProgressReport)) : Py.result float :=
  match progress_report with
  | [] => Py.Ok (Fin 0)
  | _ =>
      progress_scores <-
        progress_scores_of (Py.dict_values progress_report) [] ;;
      Py.Ok
        (Py.min2 (Fin 100)
           (Py.max2 (Fin 0)
              (Py.sum progress_scores / of_nat (length progress_scores))%float))
  end.

Section WithStudentT.

Variable student_t_pvalue : Z -> float -> float.

(** The loop of [_analyze_trend] over the lookback periods. *)
Fixpoint analyze_periods (now : Z) (history : History)
  (periods : list (string * Z)) (trend_analysis : list (string * Trend))
  : Py.result (list (string * Trend)) :=
  match periods with
  | [] => Py.Ok trend_analysis
  | (period_name, days) :: rest =>
      let period_data := values (since history (cutoff now days)) in
      if (2 <=? length period_data)%nat then
        let x := Numpy.arange (length period_data) in
        res <- Scipy.linregress student_t_pvalue x period_data ;;
        analyze_periods now history rest
          (Py.dict_set trend_analysis period_name
             {| slope := Scipy.slope res;
                direction :=
                  if (Scipy.slope res >? Fin 0)%float
                  then improving else declining;
                strength := fabs (Scipy.rvalue res);
                significance := (Scipy.pvalue res <? Fin (5 # 100))%float;
                volatility := (std period_data / mean period_data)%float |})
      else analyze_periods now history rest trend_analysis
  end.

(** [_analyze_trend] (lines 111-143). *)
Definition _analyze_trend (self : t) (now : Z) (history : History)
  : Py.result (list (string * Trend)) :=
  analyze_periods now history (lookback_periods self) [].

(** [series.dropna()] on a column with missing values. *)
Definition dropna (column : list (Z * option Q)) : History :=
  flat_map (fun row =>
              match snd row with
              | Some v => [(fst row, v)]
              | None => []
              end) column.

(** The loop of [track_progress] over the current metrics. *)
Fixpoint track_metrics (self : t) (now : Z)
  (current_stats : list (string * Q))
  (historical_data : list (string * list (Z * option Q)))
  (target_metrics : list (string * Q))
  (progress_report : list (string * ProgressReport))
  : Py.result (list (string * ProgressReport)) :=
  match current_stats with
  | [] => Py.Ok progress_report
  | (metric, current_value) :: rest =>
      match Py.dict_get historical_data metric with
      | Some column =>
          let metric_history := dropna column in
          match metric_history with
          | [] =>
              track_metrics self now rest historical_data target_metrics
                progress_report
          | _ =>
              trends <- _analyze_trend self now metric_history ;;
              track_metrics self now rest historical_data target_metrics
                (Py.dict_set progress_report metric
                   {| current_value := current_value;
                      target_value := Py.dict_get target_metrics metric;
                      historical_comparison :=
                        _compare_with_history self now current_value
                          metric_history;
                      trend_analysis := trends;
                      improvement_rate :=
                        _calculate_improvement_rate self now current_value
                          metric_history;
                      milestone_progress :=
                        _track_milestones current_value
                          (match Py.dict_get target_metrics metric with
                           | Some target => target
                           | None => current_value * (12 # 10)
                           end)
                          default_num_milestones |})
          end
      | None =>
          track_metrics self now rest historical_data target_metrics
            progress_report
      end
  end.

(** [track_progress] (lines 34-77); [historical_data] is the frame, a
    column of rows (timestamp, value or missing) for every metric. *)
Definition track_progress (self : t) (now : Z)
  (current_stats : list (string * Q))
  (historical_data : list (string * list (Z * option Q)))
  (target_metrics : list (string * Q))
  : Py.result (list (string * ProgressReport)) :=
  track_metrics self now current_stats historical_data target_metrics [].

End WithStudentT.

End ProgressTracker.


(** ** Inputs of the scenarios *)

Module Scenario.

Import ProgressTracker.

(** A series that is flat at 70 and ends with three observations at 40. *)
Definition flat_then_dip : Pandas.Series := repeat 70 17 ++ [40; 40; 40].

(** The series of the end-to-end scenario of the specification. *)
Definition depressed_tail : Pandas.Series :=
  [70; 71; 69; 70; 68; 70; 71; 40; 40; 40].

(** A window whose mean is negative. *)
Definition below_zero : Pandas.Series := [-3; -2; -1].

(** A series whose last five observations have the mean 2, the target
    that its clean part [0; 0; 1; 2; 2] suggests (mean 1, standard
    deviation 1); the last observation is an outlier. *)
Definition at_target : Pandas.Series := [0; 0; 1; 2; 2; 5].

(** A trend of strength 1.0 in the direction [d]. *)
Definition full_trend (d : Direction) : Trend :=
  {| slope := match d with improving => Fin 1 | declining => Fin (-1) end;
     direction := d;
     strength := Fin 1;
     significance := true;
     volatility := Fin (1 # 10) |}.

(** The report of a metric with the given trends and milestone progress. *)
Definition report_of (trends : list (string * Trend)) (progress : Q)
  : ProgressReport :=
  {| current_value := 50;
     target_value := Some 60;
     historical_comparison := [];
     trend_analysis := trends;
     improvement_rate := [];
     milestone_progress :=
       {| total_progress := Fin progress;
          next_milestone := None;
          remaining_milestones := [];
          completed_milestones := [] |} |}.

(** A clock reading, and a history of one observation a day before it. *)
Definition today : Z := 1700000000.

Definition one_observation : list (string * list (Z * option Q)) :=
  [("accuracy"%string, [((today - seconds_per_day)%Z, Some 48)])].

(** The report that [track_progress] builds from [one_observation] for a
    current accuracy of 50, without targets. *)
Definition one_observation_report : list (string * ProgressReport) :=
  Eval vm_compute in
    match track_progress (fun _ _ => NaN) (init None) today
            [("accuracy"%string, 50)] one_observation [] with
    | Py.Ok report => report
    | Py.Raise _ => []
    end.

End Scenario.

(** ** Notions of the statements *)

Module PT := ProgressTracker.

(** The strongest signed trend strength of a metric, as the generator
    expression under [max] yields it. *)
Definition strongest_trend (analysis : PT.ProgressReport) : float :=
  match map PT.signed_strength (Py.dict_values (PT.trend_analysis analysis)) with
  | [] => Fin 0
  | s :: rest => Py.max_from s rest
  end.

(** The score of one metric: milestone progress times one plus the
    strongest signed trend strength. *)
Definition metric_score (analysis : PT.ProgressReport) : float :=
  (PT.total_progress (PT.milestone_progress analysis)
   * (Fin 1 + strongest_trend analysis))%float.

(** The milestone of level [i] between [current_value] and [target_value],
    out of [n]. *)
Definition evenly_spaced (current_value target_value : Q) (n : nat)
  (milestone : PT.Milestone) : Prop :=
  PT.value milestone
  == current_value
     + inject_Z (Z.of_nat (PT.level milestone))
       * ((target_value - current_value) / inject_Z (Z.of_nat n))
  /\ exists p,
       PT.progress milestone = Fin p
       /\ p == 100 * inject_Z (Z.of_nat (PT.level milestone))
               / inject_Z (Z.of_nat n).

(** A milestone that the current value has reached. *)
Definition reached (current_value : Q) (milestone : PT.Milestone) : bool :=
  Qleb (PT.value milestone) current_value.

(** The milestones that are not reached yet: the next one, then the
    remaining ones. *)
Definition pending (tracking : PT.MilestoneTracking) : list PT.Milestone :=
  match PT.next_milestone tracking with
  | Some milestone => milestone :: PT.remaining_milestones tracking
  | None => PT.remaining_milestones tracking
  end.

(** [v] lies between [a] and [b], in either order. *)
Definition between (a b v : Q) : Prop :=
  (a <= v /\ v <= b) \/ (b <= v /\ v <= a).

(** The range of [pd.Timestamp] in seconds from the Unix epoch (1677 to
    2262), and the largest number of days of a [timedelta]. *)
Definition timestamp_min : Z := (-9223372036)%Z.

Definition timestamp_max : Z := 9223372036%Z.

Definition timedelta_max_days : Z := 999999999%Z.

(** The cut-off date [datetime.now() - timedelta(days=days)] exists and can
    be compared with the dates of a [DatetimeIndex]. *)
Definition cutoff_defined (now days : Z) : Prop :=
  (- timedelta_max_days <= days <= timedelta_max_days)%Z
  /\ (timestamp_min <= PT.cutoff now days <= timestamp_max)%Z.

(** The cut-off dates of all the lookback periods of a tracker exist. *)
Definition lookback_defined (self : PT.t) (now : Z) : Prop :=
  Forall (fun period => cutoff_defined now (snd period))
    (PT.lookback_periods self).

(** ** Sorting with a boolean key *)

Module PySort.

(** [x] goes before the first element whose key is not greater than its
    own: the place that a stable descending sort gives to an element that
    came first. *)
Fixpoint insert_reverse {A : Type} (key : A -> bool) (x : A) (l : list A)
  : list A :=
  match l with
  | [] => [x]
  | y :: l' =>
      if key y && negb (key x) then y :: insert_reverse key x l'
      else x :: l
  end.

(** [l.sort(key=key, reverse=True)] and [sorted(l, key=key, reverse=True)]
    for a boolean key: descending, and stable. *)
Definition sort_reverse {A : Type} (key : A -> bool) (l : list A) : list A :=
  fold_right (insert_reverse key) [] l.

End PySort.

(** ** performance_analyzer.py: recommendations *)

Module PerformanceReport.

Import PerformanceAnalyzer.

Inductive Priority : Type :=
| high
| medium.

Definition is_high (p : Priority) : bool :=
  match p with high => true | medium => false end.

Record Recommendation : Type := {
  metric : string;
  current_level : float;
  target_level : float;
  improvement_needed : float;
  trend_info : TrendInfo;
  priority : Priority
}.

(** The recommendation that the loop of [generate_recommendations] appends
    for a metric that needs improvement. *)
Definition recommendation_of (metric : string) (analysis : MetricAnalysis)
  : Recommendation :=
  let current := current_mean (current_stats analysis) in
  let target := suggested_target (improvement_analysis analysis) in
  {| metric := metric;
     current_level := current;
     target_level := target;
     improvement_needed := fabs (target - current)%float;
     trend_info := trend (current_stats analysis);
     priority :=
       if (z_score (improvement_analysis analysis) <? Fin (-2))%float
       then high else medium |}.

(** [generate_recommendations] (lines 176-207). *)
Definition generate_recommendations
  (analysis_results : list (string * MetricAnalysis)) : list Recommendation :=
  let recommendations :=
    flat_map
      (fun '(metric, analysis) =>
         if needs_improvement (improvement_analysis analysis)
         then [recommendation_of metric analysis]
         else [])
      analysis_results in
  PySort.sort_reverse (fun x => is_high (priority x)) recommendations.

End PerformanceReport.

(** ** progress_tracker.py: summary and suggestions *)

Module ProgressSummary.

Import ProgressTracker.

Record KeyImprovement : Type := {
  improved_metric : string;
  improvement : float
}.

Record Concern : Type := {
  concern_metric : string;
  decline : float
}.

Record RecentMilestone : Type := {
  milestone_metric : string;
  milestone_level : nat;
  milestone_value : Q
}.

Record NextTarget : Type := {
  target_metric : string;
  target : Q;
  target_progress : float
}.

Record Summary : Type := {
  overall_progress : float;
  key_improvements : list KeyImprovement;
  areas_of_concern : list Concern;
  recent_milestones : list RecentMilestone;
  next_targets : list NextTarget
}.

(** [analysis['historical_comparison'].get('short_term', {}).get('change', 0)] *)
Definition short_term_change (analysis : ProgressReport) : float :=
  match Py.dict_get (historical_comparison analysis) "short_term" with
  | Some short_term => change short_term
  | None => Fin 0
  end.

(** The body of the loop of [generate_progress_summary], for one metric. *)
Definition summarize_metric (summary : Summary)
  (entry : string * ProgressReport) : Summary :=
  let '(metric, analysis) := entry in
  let key_improvements :=
    if (short_term_change analysis >? Fin 5)%float
    then key_improvements summary
         ++ [{| improved_metric := metric;
                improvement := short_term_change analysis |}]
    else key_improvements summary in
  let areas_of_concern :=
    if (short_term_change analysis <? Fin (-5))%float
    then areas_of_concern summary
         ++ [{| concern_metric := metric;
                decline := fabs (short_term_change analysis) |}]
    else areas_of_concern summary in
  let recent_milestones :=
    match rev (completed_milestones (milestone_progress analysis)) with
    | latest_milestone :: _ =>
        recent_milestones summary
        ++ [{| milestone_metric := metric;
               milestone_level := level latest_milestone;
               milestone_value := value latest_milestone |}]
    | [] => recent_milestones summary
    end in
  let next_targets :=
    match next_milestone (milestone_progress analysis) with
    | Some next_milestone =>
        next_targets summary
        ++ [{| target_metric := metric;
               target := value next_milestone;
               target_progress := progress next_milestone |}]
    | None => next_targets summary
    end in
  {| overall_progress := overall_progress summary;
     key_improvements := key_improvements;
     areas_of_concern := areas_of_concern;
     recent_milestones := recent_milestones;
     next_targets := next_targets |}.

(** [generate_progress_summary] (lines 250-302). *)
Definition generate_progress_summary
  (progress_report : list (string * ProgressReport)) : Py.result Summary :=
  overall <- _calculate_overall_progress progress_report ;;
  Py.Ok
    (fold_left summarize_metric progress_report
       {| overall_progress := overall;
          key_improvements := [];
          areas_of_concern := [];
          recent_milestones := [];
          next_targets := [] |}).

Inductive Priority : Type :=
| high
| medium.

Definition is_high (p : Priority) : bool :=
  match p with high => true | medium => false end.

Record Suggestion : Type := {
  metric : string;
  priority : Priority;
  focus_areas : list string;
  training_adjustments : list string
}.

(** [_identify_focus_areas] (lines 365-387). *)
Definition _identify_focus_areas (metric_analysis : ProgressReport)
  : list string :=
  flat_map
    (fun '(period, improvement) =>
       if (consistency improvement <? Fin 70)%float
       then [("Improve consistency in " ++ period ++ " performance")%string]
       else [])
    (improvement_rate metric_analysis)
  ++ flat_map
       (fun '(period, trend) =>
          if (strength trend <? Fin (1 # 2))%float
             && match direction trend with
                | improving => true
                | declining => false
                end
          then [("Strengthen improvement trend in " ++ period)%string]
          else [])
       (trend_analysis metric_analysis).

(** [_suggest_training_adjustments] (lines 389-426); the preferences are a
    dict of strings. *)
Definition _suggest_training_adjustments (metric_analysis : ProgressReport)
  (player_preferences : option (list (string * string))) : list string :=
  flat_map
    (fun '(period, rate) =>
       if (consistency rate <? Fin 70)%float
       then [("Increase practice frequency in " ++ period
              ++ " to improve consistency")%string]
       else [])
    (improvement_rate metric_analysis)
  ++ flat_map
       (fun '(period, trend) =>
          if (volatility trend >? Fin (2 # 10))%float
          then [("Focus on stabilizing performance in " ++ period
                 ++ " sessions")%string]
          else [])
       (trend_analysis metric_analysis)
  ++ match player_preferences with
     | None | Some [] => []
     | Some preferences =>
         match Py.dict_get preferences "preferred_practice_time" with
         | None | Some EmptyString => []
         | Some preferred_time =>
             [("Schedule focused practice sessions during "
               ++ preferred_time)%string]
         end
     end.

(** [trend.get('direction') == 'declining'] for the short-term trend. *)
Definition short_term_declining (analysis : ProgressReport) : bool :=
  match Py.dict_get (trend_analysis analysis) "short_term" with
  | Some trend =>
      match direction trend with
      | declining => true
      | improving => false
      end
  | None => false
  end.

(** [get_improvement_suggestions] (lines 331-363). *)
Definition get_improvement_suggestions
  (progress_report : list (string * ProgressReport))
  (player_preferences : option (list (string * string))) : list Suggestion :=
  let suggestions :=
    flat_map
      (fun '(metric, analysis) =>
         if (short_term_change analysis <? Fin 0)%float
            || short_term_declining analysis
         then
           [{| metric := metric;
               priority :=
                 if (short_term_change analysis <? Fin (-5))%float
                 then high else medium;
               focus_areas := _identify_focus_areas analysis;
               training_adjustments :=
                 _suggest_training_adjustments analysis player_preferences |}]
         else [])
      progress_report in
  PySort.sort_reverse (fun x => is_high (priority x)) suggestions.

End ProgressSummary.

Module PR := PerformanceReport.

Module PS := ProgressSummary.

(** The four metrics that [analyze_performance] looks for. *)
Definition metric_columns : list string :=
  ["accuracy"; "reaction_time"; "decision_making"; "teamwork"]%string.

(** ** A week of observations *)

Module Week.

Import Scenario.

(** The clock reading [k] days before [today]. *)
Definition day (k : Z) : Z := (today - k * PT.seconds_per_day)%Z.

(** Three days of history: the accuracy rises, the reaction time rises
    (one value is missing), the teamwork falls. *)
Definition week_history : PT.History := [(day 3, 40); (day 2, 44); (day 1, 48)].

Definition week_frame : list (string * list (Z * option Q)) :=
  [ ("accuracy"%string,
      [(day 3, Some 40); (day 2, Some 44); (day 1, Some 48)]);
    ("reaction_time"%string,
      [(day 3, Some 200); (day 2, None); (day 1, Some 220)]);
    ("teamwork"%string,
      [(day 3, Some 80); (day 2, Some 78); (day 1, Some 76)]) ].

Definition week_current : list (string * Q) :=
  [ ("accuracy"%string, 50); ("reaction_time"%string, 250);
    ("teamwork"%string, 60) ].

Definition week_targets : list (string * Q) :=
  [ ("accuracy"%string, 85); ("reaction_time"%string, 200);
    ("teamwork"%string, 80) ].

(** The report of [track_progress] for the week. *)
Definition week_report : list (string * PT.ProgressReport) :=
  Eval vm_compute in
    match PT.track_progress (fun _ _ => NaN) (PT.init None) today
            week_current week_frame week_targets with
    | Py.Ok report => report
    | Py.Raise _ => []
    end.

(** The summary of [week_report]. *)
Definition week_summary : PS.Summary :=
  Eval vm_compute in
    match PS.generate_progress_summary week_report with
    | Py.Ok summary => summary
    | Py.Raise _ =>
        {| PS.overall_progress := NaN;
           PS.key_improvements := [];
           PS.areas_of_concern := [];
           PS.recent_milestones := [];
           PS.next_targets := [] |}
    end.

(** The trends of the accuracy over the week. *)
Definition week_trends : list (string * PT.Trend) :=
  Eval vm_compute in
    match PT._analyze_trend (fun _ _ => NaN) (PT.init None) today
            week_history with
    | Py.Ok trends => trends
    | Py.Raise _ => []
    end.

(** Reaction times that slow down at the end. *)
Definition slowing : Pandas.Series :=
  [200; 210; 190; 205; 195; 200; 210; 190; 205; 195; 215; 215; 215; 215; 215].

Definition slowing_frame : list (string * Pandas.Series) :=
  [("reaction_time"%string, slowing); ("accuracy"%string, flat_then_dip)].

(** The analysis of [slowing_frame]. *)
Definition slowing_analysis
  : list (string * PerformanceAnalyzer.MetricAnalysis) :=
  Eval vm_compute in
    match PerformanceAnalyzer.analyze_performance (fun _ _ => NaN)
            (PerformanceAnalyzer.init None) slowing_frame with
    | Py.Ok metrics => metrics
    | Py.Raise _ => []
    end.

(** An erratic accuracy, and the analysis that [track_progress] makes of
    it for a current value of 50. *)
Definition erratic_frame : list (string * list (Z * option Q)) :=
  [("accuracy"%string,
     [(day 3, Some 10); (day 2, Some 100); (day 1, Some 10)])].

Definition erratic_analysis : PT.ProgressReport :=
  Eval vm_compute in
    match PT.track_progress (fun _ _ => NaN) (PT.init None) today
            [("accuracy"%string, 50)] erratic_frame [] with
    | Py.Ok [(_, analysis)] => analysis
    | _ => report_of [] 0
    end.

End Week.

(** * Properties *)

(** ** Comparisons and clamping *)

Lemma Qltb_lt (a b : Q) : Qltb a b = true <-> a < b.
Proof. unfold Qltb, Qlt. apply Z.ltb_lt. Qed.

Lemma Qltb_ge (a b : Q) : Qltb a b = false <-> b <= a.
Proof. unfold Qltb, Qle. apply Z.ltb_ge. Qed.

Lemma Qeqb_eq (a b : Q) : Qeqb a b = true <-> a == b.
Proof. unfold Qeqb, Qeq. apply Z.eqb_eq. Qed.

Lemma Qeqb_neq (a b : Q) : Qeqb a b = false <-> ~ a == b.
Proof. unfold Qeqb, Qeq. apply Z.eqb_neq. Qed.

(** Closed facts by evaluation. *)
Ltac compute_eq := vm_compute; reflexivity.
Ltac compute_range := vm_compute; split; discriminate.

(** [min(100, max(0, x))] is a finite value between 0 and 100, whatever
    [x] is: [nan] and [-inf] go to 0, [inf] goes to 100. *)
Lemma clamp_in_range (x : float) :
  in_range 0 100 (Py.min2 (Fin 100) (Py.max2 (Fin 0) x)).
Proof.
  unfold Py.min2, Py.max2, fgt.
  destruct x as [q| | |]; cbn [flt].
  - destruct (Qltb 0 q) eqn:E0; cbn [flt].
    + apply Qltb_lt in E0.
      destruct (Qltb q 100) eqn:E1; cbn [in_range].
      * apply Qltb_lt in E1. lra.
      * lra.
    + cbn. lra.
  - cbn. lra.
  - cbn. lra.
  - cbn. lra.
Qed.

(** ** Outlier detection on the empty series *)

Import PerformanceAnalyzer.
Import Scenario.

(** C9, as the code has it: on the empty series [detect_outliers] raises
    nothing and returns the empty mask, no outlier, and [nan] for the
    outlier percentage as for both bounds, whatever the multiplier. *)
Theorem detect_outliers_empty (self : PerformanceAnalyzer.t) :
  detect_outliers self [] =
    ([], {| total_outliers := 0;
            outlier_percentage := NaN;
            lower_bound := NaN;
            upper_bound := NaN |}).
Proof. reflexivity. Qed.

(** C9, as the specification states it, fails: the outlier percentage of
    the empty series is not 0 (it is [0 / 0], that is [nan]). *)
Lemma detect_outliers_empty_percentage_not_zero :
  ~ (let stats := snd (detect_outliers (init None) []) in
     feq (outlier_percentage stats) (Fin 0) = true
     /\ lower_bound stats = NaN /\ upper_bound stats = NaN).
Proof. cbn. intros [H _]. discriminate H. Qed.

(** ** Improvement needs *)

(** With a zero standard deviation of the clean series the z-score is a
    quotient by zero: [nan] or an infinity, never a finite number. *)
Lemma zero_std_z_score_not_finite
  (raw_data clean_data : Pandas.Series) (metric : string) :
  feq (Pandas.std clean_data) (Fin 0) = true ->
  forall q,
    z_score (_analyze_improvement_needs raw_data clean_data metric) <> Fin q.
Proof.
  unfold _analyze_improvement_needs. cbn [z_score].
  destruct (Pandas.std clean_data) as [s| | |]; cbn [feq]; try discriminate.
  intros Hs q.
  destruct (Pandas.mean (Pandas.tail recent_window raw_data)
            - Pandas.mean clean_data)%float as [a| | |];
    cbn [fdiv]; rewrite ?Hs; try discriminate.
  - destruct (Qeqb a 0); [discriminate|].
    destruct (Qltb 0 a); discriminate.
  - apply Qeqb_eq in Hs.
    destruct (Qltb s 0) eqn:E; [apply Qltb_lt in E; lra | discriminate].
  - apply Qeqb_eq in Hs.
    destruct (Qltb s 0) eqn:E; [apply Qltb_lt in E; lra | discriminate].
Qed.

(** ** The regression never fails on a series that is not empty *)

Lemma amax_ge_init (l : list Q) (m : Q) : m <= Scipy.amax m l.
Proof.
  unfold Scipy.amax. revert m.
  induction l as [|v l IH]; intros m; cbn [fold_left]; [lra|].
  destruct (Qltb m v) eqn:E.
  - apply Qltb_lt in E. specialize (IH v). lra.
  - apply IH.
Qed.

Lemma amax_ge_in (l : list Q) (m v : Q) : In v l -> v <= Scipy.amax m l.
Proof.
  revert m. induction l as [|w l IH]; intros m Hv; [destruct Hv|].
  destruct Hv as [Hv|Hv].
  - subst w. unfold Scipy.amax. cbn [fold_left].
    destruct (Qltb m v) eqn:E.
    + apply (amax_ge_init l v).
    + apply Qltb_ge in E. pose proof (amax_ge_init l m). unfold Scipy.amax in *. lra.
  - unfold Scipy.amax. cbn [fold_left]. apply IH, Hv.
Qed.

Lemma amin_le_init (l : list Q) (m : Q) : Scipy.amin m l <= m.
Proof.
  unfold Scipy.amin. revert m.
  induction l as [|v l IH]; intros m; cbn [fold_left]; [lra|].
  destruct (Qltb v m) eqn:E.
  - apply Qltb_lt in E. specialize (IH v). lra.
  - apply IH.
Qed.

Lemma length_arange (n : nat) : length (Numpy.arange n) = n.
Proof. unfold Numpy.arange. now rewrite length_map, length_seq. Qed.

(** [linregress] on the indices [0 .. n-1] of a series that is not empty
    raises nothing. *)
Lemma linregress_arange_ok (student_t_pvalue : Z -> float -> float)
  (y : list Q) :
  y <> [] ->
  exists res,
    Scipy.linregress student_t_pvalue (Numpy.arange (length y)) y = Py.Ok res.
Proof.
  destruct y as [|y0 y]; [congruence|]. intros _.
  pose proof (length_arange (length (y0 :: y))) as Hlen.
  unfold Scipy.linregress.
  destruct (Numpy.arange (length (y0 :: y))) as [|x0 x] eqn:Ex;
    [discriminate Hlen|].
  assert (Hx0 : x0 = 0) by (cbn in Ex; injection Ex; intros; subst; reflexivity).
  replace (Qeqb (Scipy.amax x0 (x0 :: x)) (Scipy.amin x0 (x0 :: x))
           && (1 <? length (x0 :: x))%nat) with false.
  - rewrite Hlen, Nat.eqb_refl. cbn [negb]. eexists. reflexivity.
  - symmetry. apply andb_false_iff.
    destruct y as [|y1 y]; [right; rewrite Hlen; reflexivity|].
    left. apply Qeqb_neq. intros Heq.
    assert (H1 : In 1 (x0 :: x)).
    { rewrite <- Ex. unfold Numpy.arange.
      change 1 with (inject_Z (Z.of_nat 1)).
      apply in_map with (f := fun i => inject_Z (Z.of_nat i)).
      apply in_seq. cbn [length]. lia. }
    pose proof (amax_ge_in (x0 :: x) x0 1 H1).
    pose proof (amin_le_init (x0 :: x) x0).
    subst x0. lra.
Qed.

Lemma calculate_trend_ok (student_t_pvalue : Z -> float -> float)
  (data : Pandas.Series) :
  data <> [] -> exists trend, _calculate_trend student_t_pvalue data = Py.Ok trend.
Proof.
  intros H. unfold _calculate_trend.
  destruct (linregress_arange_ok student_t_pvalue data H) as [res ->].
  cbn [Py.bind]. eexists. reflexivity.
Qed.

(** [analyze_column] returns as soon as the trend of the column does. *)
Lemma analyze_column_ok (student_t_pvalue : Z -> float -> float)
  (self : PerformanceAnalyzer.t) (data : Pandas.Series) (column : string)
  (tr : TrendInfo) :
  _calculate_trend student_t_pvalue data = Py.Ok tr ->
  let clean_data := Pandas.drop_masked data (fst (detect_outliers self data)) in
  analyze_column student_t_pvalue self data column =
    Py.Ok
      {| current_stats :=
           {| current_mean := Pandas.mean data;
              current_median := Pandas.median data;
              current_std := Pandas.std data;
              trend := tr |};
         outlier_stats := snd (detect_outliers self data);
         clean_stats :=
           {| clean_mean := Pandas.mean clean_data;
              clean_median := Pandas.median clean_data;
              clean_std := Pandas.std clean_data |};
         improvement_analysis :=
           _analyze_improvement_needs data clean_data column |}.
Proof.
  intros Htr. unfold analyze_column.
  destruct (detect_outliers self data) as [outliers stats].
  rewrite Htr. reflexivity.
Qed.

(** The analysis of a frame whose one column is the accuracy. *)
Lemma analyze_performance_accuracy (student_t_pvalue : Z -> float -> float)
  (self : PerformanceAnalyzer.t) (data : Pandas.Series) (m : MetricAnalysis) :
  analyze_column student_t_pvalue self data "accuracy" = Py.Ok m ->
  analyze_performance student_t_pvalue self [("accuracy"%string, data)]
  = Py.Ok [("accuracy"%string, m)].
Proof.
  intros H. unfold analyze_performance.
  cbn [analyze_columns Py.dict_get]. rewrite String.eqb_refl, H.
  reflexivity.
Qed.

(** C1 at [flat_then_dip], metric accuracy: the three observations at 40
    are the outliers, the clean series is flat and its standard deviation
    is 0, and the analysis returns a z-score of [-inf] and asks for
    improvement, where the specification wants 0 and no improvement. *)
Theorem zero_variance_needs_improvement
  (student_t_pvalue : Z -> float -> float) :
  exists m,
    analyze_performance student_t_pvalue (init None)
      [("accuracy"%string, flat_then_dip)]
    = Py.Ok [("accuracy"%string, m)]
    /\ fst (detect_outliers (init None) flat_then_dip)
       = repeat false 17 ++ [true; true; true]
    /\ clean_mean (clean_stats m) = Fin 70
    /\ clean_std (clean_stats m) = Fin 0
    /\ recent_mean (recent_performance (improvement_analysis m)) = Fin 52
    /\ z_score (improvement_analysis m) = NInf
    /\ needs_improvement (improvement_analysis m) = true.
Proof.
  destruct (calculate_trend_ok student_t_pvalue flat_then_dip) as [tr Htr];
    [discriminate|].
  eexists. split; [apply analyze_performance_accuracy, analyze_column_ok, Htr|].
  cbn [improvement_analysis clean_stats clean_std clean_mean].
  clear Htr.
  do 5 (split; [compute_eq|]).
  compute_eq.
Qed.

(** C2, as the specification states it, fails: on [depressed_tail] no
    observation is flagged, so the mask of the specification (the three
    observations at 40) is not the one computed. *)
Lemma depressed_tail_claim_fails :
  ~ (forall student_t_pvalue, exists m,
       analyze_performance student_t_pvalue (init None)
         [("accuracy"%string, depressed_tail)]
       = Py.Ok [("accuracy"%string, m)]
       /\ fst (detect_outliers (init None) depressed_tail)
          = repeat false 7 ++ [true; true; true]
       /\ in_range (6985 # 100) (6987 # 100) (clean_mean (clean_stats m))
       /\ in_range (5175 # 100) (5185 # 100)
            (recent_mean (recent_performance (improvement_analysis m)))
       /\ (z_score (improvement_analysis m) <? Fin (-1))%float = true
       /\ needs_improvement (improvement_analysis m) = true
       /\ suggested_target (improvement_analysis m)
          = (clean_mean (clean_stats m) + clean_std (clean_stats m))%float).
Proof.
  intros H. destruct (H (fun _ _ => NaN)) as (m & _ & Hmask & _).
  vm_compute in Hmask. discriminate Hmask.
Qed.

(** C2, as the code has it: on [depressed_tail] with multiplier 1.5 the
    quartiles are 47 and 70, the bounds 12.5 and 104.5, and no observation
    is an outlier; the clean mean is 60.9, the mean of the last five
    observations 52.2, the z-score about -0.60, no improvement is asked
    for, and the suggested target is the clean mean plus the clean
    standard deviation, about 75.35. *)
Theorem depressed_tail_analysis (student_t_pvalue : Z -> float -> float) :
  exists m,
    analyze_performance student_t_pvalue (init None)
      [("accuracy"%string, depressed_tail)]
    = Py.Ok [("accuracy"%string, m)]
    /\ Pandas.quantile depressed_tail (1 # 4) = Fin 47
    /\ Pandas.quantile depressed_tail (3 # 4) = Fin 70
    /\ fst (detect_outliers (init None) depressed_tail) = repeat false 10
    /\ total_outliers (outlier_stats m) = 0%Z
    /\ lower_bound (outlier_stats m) = Fin (25 # 2)
    /\ upper_bound (outlier_stats m) = Fin (209 # 2)
    /\ clean_mean (clean_stats m) = Fin (609 # 10)
    /\ recent_mean (recent_performance (improvement_analysis m))
       = Fin (261 # 5)
    /\ in_range (-61 # 100) (-60 # 100) (z_score (improvement_analysis m))
    /\ needs_improvement (improvement_analysis m) = false
    /\ suggested_target (improvement_analysis m)
       = (clean_mean (clean_stats m) + clean_std (clean_stats m))%float
    /\ in_range (7534 # 100) (7535 # 100)
         (suggested_target (improvement_analysis m)).
Proof.
  destruct (calculate_trend_ok student_t_pvalue depressed_tail) as [tr Htr];
    [discriminate|].
  eexists. split; [apply analyze_performance_accuracy, analyze_column_ok, Htr|].
  cbn [improvement_analysis clean_stats clean_std clean_mean outlier_stats].
  clear Htr.
  do 8 (split; [compute_eq|]).
  split; [compute_range|].
  do 2 (split; [compute_eq|]).
  compute_range.
Qed.

(** ** Trends of short series *)

Lemma dict_get_set {V : Type} (d : list (string * V)) (k k' : string) (v : V) :
  Py.dict_get (Py.dict_set d k v) k'
  = if String.eqb k k' then Some v else Py.dict_get d k'.
Proof.
  induction d as [|[k0 w] d IH]; cbn [Py.dict_set Py.dict_get]; [reflexivity|].
  destruct (String.eqb k0 k) eqn:E0; cbn [Py.dict_get].
  - apply String.eqb_eq in E0. subst k0.
    destruct (String.eqb k k'); reflexivity.
  - rewrite IH. destruct (String.eqb k0 k') eqn:E1; [|reflexivity].
    apply String.eqb_eq in E1. subst k'. rewrite String.eqb_sym, E0.
    reflexivity.
Qed.

(** The loop of [_analyze_trend], the cut-off dates taken as they are
    computed here: it raises nothing, and the names it adds to the trends
    are those of the periods whose window has two points or more. *)
Lemma analyze_periods_spec (student_t_pvalue : Z -> float -> float)
  (now : Z) (history : ProgressTracker.History)
  (periods : list (string * Z))
  (acc : list (string * ProgressTracker.Trend)) :
  exists trends,
    ProgressTracker.analyze_periods student_t_pvalue now history periods acc
      = Py.Ok trends
    /\ forall name,
         Py.dict_get trends name <> None <->
         (Py.dict_get acc name <> None
          \/ exists days,
               In (name, days) periods
               /\ (2 <= length (ProgressTracker.since history
                                  (ProgressTracker.cutoff now days)))%nat).
Proof.
  revert acc. induction periods as [|[period_name days] rest IH]; intros acc.
  - exists acc. split; [reflexivity|]. intros name. split; [tauto|].
    intros [H|(d & [] & _)]. exact H.
  - cbn [ProgressTracker.analyze_periods].
    set (period_data :=
           ProgressTracker.values
             (ProgressTracker.since history
                (ProgressTracker.cutoff now days))).
    assert (Hlen : length period_data
                   = length (ProgressTracker.since history
                               (ProgressTracker.cutoff now days)))
      by (unfold period_data, ProgressTracker.values; apply length_map).
    destruct (2 <=? length period_data)%nat eqn:E.
    + apply Nat.leb_le in E.
      destruct (linregress_arange_ok student_t_pvalue period_data)
        as [res Hres].
      { intros Hnil. rewrite Hnil in E. cbn in E. lia. }
      rewrite Hres. cbn [Py.bind].
      match goal with
      | |- context [Py.dict_set acc period_name ?v] =>
          destruct (IH (Py.dict_set acc period_name v)) as (trends & Heq & Hin)
      end.
      exists trends. split; [exact Heq|].
      intros name. rewrite Hin, dict_get_set.
      destruct (String.eqb period_name name) eqn:En.
      * apply String.eqb_eq in En. subst name. split; intros _.
        -- right. exists days. split; [left; reflexivity|lia].
        -- left. discriminate.
      * apply String.eqb_neq in En. split.
        -- intros [H|(d & Hd & Hl)]; [left; exact H|].
           right. exists d. split; [right; exact Hd|exact Hl].
        -- intros [H|(d & [Hd|Hd] & Hl)]; [left; exact H| |].
           ++ congruence.
           ++ right. exists d. split; assumption.
    + apply Nat.leb_gt in E.
      destruct (IH acc) as (trends & Heq & Hin).
      exists trends. split; [exact Heq|].
      intros name. rewrite Hin. split.
      * intros [H|(d & Hd & Hl)]; [left; exact H|].
        right. exists d. split; [right; exact Hd|exact Hl].
      * intros [H|(d & [Hd|Hd] & Hl)]; [left; exact H| |].
        -- injection Hd as <- <-. lia.
        -- right. exists d. split; assumption.
Qed.

(** C3: [PerformanceAnalyzer._calculate_trend] on a series of one point.
    It checks no length and hands the series to the regression, which
    returns: the result is a [TrendInfo] whose slope is [nan], declining
    and weak.  No lack of data is signalled. *)
Theorem trend_of_short_series (student_t_pvalue : Z -> float -> float)
  (v : Q) :
  exists trend,
    _calculate_trend student_t_pvalue [v] = Py.Ok trend
    /\ slope trend = NaN
    /\ direction trend = declining
    /\ strength trend = weak.
Proof.
  exists {| direction := declining; slope := NaN; r_squared := Fin 0;
            significance :=
              (student_t_pvalue (-1)%Z NaN <? Fin (5 # 100))%float;
            strength := weak |}.
  split; [vm_compute; reflexivity|]. repeat split.
Qed.

(** [ProgressTracker._analyze_trend] has the guard that [_calculate_trend]
    lacks: with lookback periods whose cut-off dates exist it raises
    nothing, and it has an entry for a period exactly when the window of
    the period has two points or more. *)
Lemma analyze_trend_skips_short_windows
  (student_t_pvalue : Z -> float -> float) (self : PT.t) (now : Z)
  (history : PT.History) :
  lookback_defined self now ->
  exists trends,
    PT._analyze_trend student_t_pvalue self now history = Py.Ok trends
    /\ forall name,
         Py.dict_get trends name <> None <->
         exists days,
           In (name, days) (PT.lookback_periods self)
           /\ (2 <= length (PT.since history (PT.cutoff now days)))%nat.
Proof.
  intros _. unfold PT._analyze_trend.
  destruct (analyze_periods_spec student_t_pvalue now history
              (PT.lookback_periods self) [])
    as (trends & Heq & Hin).
  exists trends. split; [exact Heq|].
  intros name. rewrite Hin. cbn [Py.dict_get]. split.
  - intros [H|H]; [congruence|exact H].
  - intros H. right. exact H.
Qed.

(** The cut-off dates of the default periods exist at [today]. *)
Lemma default_lookback_defined : lookback_defined (PT.init None) today.
Proof.
  unfold lookback_defined. cbn.
  repeat constructor; vm_compute; discriminate.
Qed.

(** A window of one row has no trend entry. *)
Lemma one_row_window_skipped :
  exists trends,
    PT._analyze_trend (fun _ _ => NaN) (PT.init None) today
      [((today - PT.seconds_per_day)%Z, 48)]
    = Py.Ok trends
    /\ Py.dict_get trends "short_term" = None.
Proof.
  destruct (analyze_trend_skips_short_windows (fun _ _ => NaN)
              (PT.init None) today [((today - PT.seconds_per_day)%Z, 48)]
              default_lookback_defined)
    as (trends & Heq & Hin).
  exists trends. split; [exact Heq|].
  destruct (Py.dict_get trends "short_term") as [trend|] eqn:E;
    [exfalso|reflexivity].
  assert (Hsome : Py.dict_get trends "short_term" <> None)
    by (rewrite E; discriminate).
  apply Hin in Hsome. destruct Hsome as (days & Hdays & Hlen).
  cbn in Hdays.
  destruct Hdays as [H|[H|[H|[]]]]; try discriminate H.
  injection H as <-. clear - Hlen. vm_compute in Hlen. lia.
Qed.

(** ** Round trip through the suggested target *)

(** The configuration of a metric is one of two: higher is better with
    threshold -1, or lower is better with threshold 1. *)
Lemma config_cases (metric : string) :
  (higher_better (config_of metric) = true
   /\ threshold (config_of metric) = Fin (-1))
  \/ (higher_better (config_of metric) = false
      /\ threshold (config_of metric) = Fin 1).
Proof.
  unfold config_of, metric_configs. cbn [Py.dict_get].
  repeat match goal with
         | |- context [String.eqb ?a ?b] => destruct (String.eqb a b)
         end; cbn; tauto.
Qed.

(** C8: when the standard deviation of the clean series is positive and
    the mean of the recent observations equals the suggested target of the
    analysis (the clean mean plus the clean standard deviation for a metric
    where higher is better, minus it where lower is better), no
    improvement is asked for. *)
Theorem at_suggested_target_no_improvement
  (raw_data clean_data : Pandas.Series) (metric : string) :
  (Pandas.std clean_data >? Fin 0)%float = true ->
  feq (recent_mean
         (recent_performance
            (_analyze_improvement_needs raw_data clean_data metric)))
      (suggested_target
         (_analyze_improvement_needs raw_data clean_data metric)) = true ->
  needs_improvement (_analyze_improvement_needs raw_data clean_data metric)
  = false.
Proof.
  unfold _analyze_improvement_needs.
  cbn [recent_mean recent_performance suggested_target needs_improvement].
  generalize (Pandas.mean (Pandas.tail recent_window raw_data)) as rm.
  generalize (Pandas.mean clean_data) as hm.
  generalize (Pandas.std clean_data) as hs.
  intros hs hm rm.
  destruct (config_cases metric) as [[-> ->]|[-> ->]];
    destruct rm as [r| | |], hm as [m| | |], hs as [s| | |];
    unfold fgt, fsub, fin;
    cbn [fadd fneg fdiv flt feq fin];
    unfold fin; cbn [fadd fneg fdiv flt feq];
    intros Hs Heq; try discriminate; try reflexivity.
  all: try (destruct (Qltb s 0); reflexivity).
  - apply Qltb_lt in Hs. apply Qeqb_eq in Heq. rewrite Qred_correct in Heq.
    destruct (Qeqb s 0) eqn:E0; [apply Qeqb_eq in E0; lra|].
    cbn [flt]. apply Qltb_ge. rewrite !Qred_correct.
    apply Qle_shift_div_l; [exact Hs|]. lra.
  - apply Qltb_lt in Hs. apply Qeqb_eq in Heq. rewrite !Qred_correct in Heq.
    destruct (Qeqb s 0) eqn:E0; [apply Qeqb_eq in E0; lra|].
    apply Qltb_ge. rewrite !Qred_correct.
    apply Qle_shift_div_r; [exact Hs|]. lra.
Qed.

Lemma at_suggested_target_witness :
  Pandas.drop_masked at_target (fst (detect_outliers (init None) at_target))
  = [0; 0; 1; 2; 2]
  /\ Pandas.std [0; 0; 1; 2; 2] = Fin 1
  /\ suggested_target
       (_analyze_improvement_needs at_target [0; 0; 1; 2; 2] "accuracy")
     = Fin 2
  /\ Pandas.mean (Pandas.tail recent_window at_target) = Fin 2
  /\ needs_improvement
       (_analyze_improvement_needs at_target [0; 0; 1; 2; 2] "accuracy")
     = false.
Proof.
  do 4 (split; [vm_compute; reflexivity|]).
  apply at_suggested_target_no_improvement; vm_compute; reflexivity.
Defined.

(** ** Overall progress *)

Lemma progress_scores_of_trends (analyses : list PT.ProgressReport)
  (scores : list float) :
  Forall (fun analysis => PT.trend_analysis analysis <> []) analyses ->
  PT.progress_scores_of analyses scores
  = Py.Ok (scores ++ map metric_score analyses).
Proof.
  intros H. revert scores.
  induction H as [|analysis rest Hne _ IH]; intros scores.
  - cbn. now rewrite app_nil_r.
  - cbn [PT.progress_scores_of map]. unfold metric_score at 1, strongest_trend.
    destruct (PT.trend_analysis analysis) as [|[name trend] trends];
      [congruence|].
    cbn [Py.dict_values map Py.max_iter Py.bind snd].
    rewrite IH, <- app_assoc. reflexivity.
Qed.

Lemma progress_scores_of_no_trend (analyses : list PT.ProgressReport)
  (scores : list float) (analysis : PT.ProgressReport) :
  In analysis analyses ->
  PT.trend_analysis analysis = [] ->
  PT.progress_scores_of analyses scores = Py.Raise Py.ValueError.
Proof.
  intros Hin Hnil. revert scores.
  induction analyses as [|a rest IH]; intros scores; [destruct Hin|].
  cbn [PT.progress_scores_of].
  destruct (Py.max_iter
              (map PT.signed_strength (Py.dict_values (PT.trend_analysis a))))
    as [s|[]] eqn:E; cbn [Py.bind]; [|reflexivity].
  destruct Hin as [->|Hin].
  - rewrite Hnil in E. discriminate E.
  - apply IH, Hin.
Qed.

(** A metric without milestone progress counts for 0 when it has a
    trend. *)
Lemma metric_score_without_progress (analysis : PT.ProgressReport) (s : Q) :
  PT.total_progress (PT.milestone_progress analysis) = Fin 0 ->
  strongest_trend analysis = Fin s ->
  metric_score analysis = Fin 0.
Proof.
  intros H1 H2. unfold metric_score. rewrite H1, H2.
  cbn [fadd fmul]. unfold fin. destruct (Qred (1 + s)) as [n d].
  reflexivity.
Qed.

(** Where every metric of a report has a trend entry, the overall progress
    is the mean of the scores of the metrics, clamped by
    [min(100, max(0, .))]. *)
Lemma overall_progress_formula (progress_report : list (string * PT.ProgressReport)) :
  progress_report <> [] ->
  Forall (fun analysis => PT.trend_analysis analysis <> [])
    (Py.dict_values progress_report) ->
  PT._calculate_overall_progress progress_report
  = Py.Ok
      (Py.min2 (Fin 100)
         (Py.max2 (Fin 0)
            (Py.sum (map metric_score (Py.dict_values progress_report))
             / of_nat (length progress_report))%float)).
Proof.
  intros Hne Hall. unfold PT._calculate_overall_progress.
  destruct progress_report as [|entry rest]; [congruence|].
  rewrite (progress_scores_of_trends _ [] Hall). cbn [Py.bind app].
  unfold Py.dict_values. now rewrite !length_map.
Qed.

(** A score that [_calculate_overall_progress] returns lies between 0 and
    100. *)
Lemma overall_progress_in_range
  (progress_report : list (string * PT.ProgressReport)) (score : float) :
  PT._calculate_overall_progress progress_report = Py.Ok score ->
  in_range 0 100 score.
Proof.
  unfold PT._calculate_overall_progress.
  destruct progress_report as [|entry rest].
  - intros [= <-]. cbn. lra.
  - destruct (PT.progress_scores_of _ _) as [scores|e]; cbn [Py.bind];
      [|discriminate].
    intros [= <-]. apply clamp_in_range.
Qed.

(** C4 at three reports with milestone progress 80: a trend of strength
    1.0 gives the score 100 when improving and 0 when declining, both in
    range; with a second metric that has no trend entry
    [_calculate_overall_progress] raises [ValueError] and returns no
    score. *)
Theorem overall_progress_without_trend :
  PT._calculate_overall_progress
    [("accuracy"%string,
      report_of [("short_term"%string, full_trend PT.improving)] 80)]
  = Py.Ok (Fin 100)
  /\ PT._calculate_overall_progress
       [("accuracy"%string,
         report_of [("short_term"%string, full_trend PT.declining)] 80)]
     = Py.Ok (Fin 0)
  /\ PT._calculate_overall_progress
       [("accuracy"%string,
         report_of [("short_term"%string, full_trend PT.improving)] 80);
        ("teamwork"%string, report_of [] 80)]
     = Py.Raise Py.ValueError.
Proof. repeat split; vm_compute; reflexivity. Qed.

(** C5, as the code has it: a report with a metric whose [trend_analysis]
    is empty makes [_calculate_overall_progress] raise [ValueError] ([max]
    of an empty sequence), where the specification wants the metric to
    count for 0. *)
Theorem overall_progress_empty_trend_raises
  (progress_report : list (string * PT.ProgressReport))
  (metric : string) (analysis : PT.ProgressReport) :
  In (metric, analysis) progress_report ->
  PT.trend_analysis analysis = [] ->
  PT._calculate_overall_progress progress_report = Py.Raise Py.ValueError.
Proof.
  intros Hin Hnil. unfold PT._calculate_overall_progress.
  destruct progress_report as [|entry rest]; [destruct Hin|].
  rewrite (progress_scores_of_no_trend _ [] analysis); [reflexivity| |exact Hnil].
  unfold Py.dict_values. change analysis with (snd (metric, analysis)).
  apply in_map, Hin.
Qed.

(** The report that [track_progress] builds from a history of one
    observation has no trend entry, and [_calculate_overall_progress]
    raises on it. *)
Lemma one_observation_report_raises :
  PT.track_progress (fun _ _ => NaN) (PT.init None) today
    [("accuracy"%string, 50)] one_observation []
  = Py.Ok one_observation_report
  /\ PT._calculate_overall_progress one_observation_report
     = Py.Raise Py.ValueError.
Proof.
  split; [vm_compute; reflexivity|].
  eapply overall_progress_empty_trend_raises.
  - left. reflexivity.
  - reflexivity.
Defined.

(** ** Consistency *)

(** The score of a window of two points or more is
    [100 * (1 - min(cv, 1))], [cv] the standard deviation over the mean. *)
Lemma consistency_formula (data : Pandas.Series) :
  (2 <= length data)%nat ->
  PT._calculate_consistency data
  = (Fin 100
     * (Fin 1 - Py.min2 (Pandas.std data / Pandas.mean data) (Fin 1)))%float.
Proof.
  intros H. unfold PT._calculate_consistency.
  destruct (length data <? 2)%nat eqn:E; [|reflexivity].
  apply Nat.ltb_lt in E. lia.
Qed.

(** A window of fewer than two points has consistency 100. *)
Lemma consistency_short_window (data : Pandas.Series) :
  (length data < 2)%nat -> PT._calculate_consistency data = Fin 100.
Proof.
  intros H. unfold PT._calculate_consistency.
  apply Nat.ltb_lt in H. now rewrite H.
Qed.

(** C7 at the window [below_zero]: the mean is -2 and the standard
    deviation 1, the coefficient of variation -0.5, and the consistency
    150, outside the range from 0 to 100 that the docstring and the
    specification give. *)
Theorem consistency_negative_mean :
  Pandas.mean below_zero = Fin (-2)
  /\ Pandas.std below_zero = Fin 1
  /\ PT._calculate_consistency below_zero = Fin 150
  /\ ~ in_range 0 100 (PT._calculate_consistency below_zero).
Proof.
  do 3 (split; [compute_eq|]).
  vm_compute. intros [_ H]. apply H. reflexivity.
Qed.

(** ** Milestones at the target *)

(** C10: when the target equals the current value, [_track_milestones]
    returns the initial tracking: progress 0.0, no next milestone, no
    completed and no remaining milestone; so it does for the default target
    [current_value * 1.2] of a current value 0. *)
Theorem milestones_at_target (current_value target_value : Q)
  (num_milestones : nat) :
  target_value == current_value ->
  PT._track_milestones current_value target_value num_milestones
  = {| PT.total_progress := Fin 0;
       PT.next_milestone := None;
       PT.remaining_milestones := [];
       PT.completed_milestones := [] |}
  /\ (current_value == 0 ->
      PT._track_milestones current_value (current_value * (12 # 10))
        num_milestones
      = {| PT.total_progress := Fin 0;
           PT.next_milestone := None;
           PT.remaining_milestones := [];
           PT.completed_milestones := [] |}).
Proof.
  intros H. unfold PT._track_milestones. split.
  - apply Qeqb_eq in H. now rewrite H.
  - intros H0.
    assert (E : Qeqb (current_value * (12 # 10)) current_value = true)
      by (apply Qeqb_eq; rewrite H0; reflexivity).
    now rewrite E.
Qed.

Lemma milestones_at_target_witness :
  PT._track_milestones 50 50 5
  = {| PT.total_progress := Fin 0;
       PT.next_milestone := None;
       PT.remaining_milestones := [];
       PT.completed_milestones := [] |}
  /\ PT._track_milestones 0 (0 * (12 # 10)) PT.default_num_milestones
     = {| PT.total_progress := Fin 0;
          PT.next_milestone := None;
          PT.remaining_milestones := [];
          PT.completed_milestones := [] |}.
Proof.
  split.
  - apply (milestones_at_target 50 50 5). reflexivity.
  - apply (milestones_at_target 0 0 PT.default_num_milestones); reflexivity.
Defined.

Lemma Qsum_from_nonneg (l : list Q) (acc : Q) :
  0 <= acc -> Forall (fun x => 0 <= x) l -> 0 <= fold_left Qplus l acc.
Proof.
  intros Hacc H. revert acc Hacc.
  induction H as [|x l Hx _ IH]; intros acc Hacc; cbn [fold_left].
  - exact Hacc.
  - apply IH. lra.
Qed.

Lemma Qmult_self_nonneg (a : Q) : 0 <= a * a.
Proof.
  unfold Qle. cbn [Qnum Qden Qmult].
  pose proof (Z.square_nonneg (Qnum a)). lia.
Qed.

Lemma inject_nat_pos (n : nat) : (0 < n)%nat -> 0 < inject_Z (Z.of_nat n).
Proof. intros H. unfold Qlt. cbn [Qnum Qden inject_Z]. lia. Qed.

Lemma Qsqrt_nonneg (q : Q) : 0 <= Qsqrt q.
Proof.
  unfold Qsqrt, Qle. cbn [Qnum Qden].
  pose proof (Z.sqrt_nonneg (Qnum q * QDen q * 4 ^ sqrt_bits)). lia.
Qed.

(** The standard deviation of two values or more is a finite number that
    is not negative. *)
Lemma std_nonneg (s : Pandas.Series) :
  (2 <= length s)%nat -> exists q, Pandas.std s = Fin q /\ 0 <= q.
Proof.
  intros Hlen. unfold Pandas.std, Pandas.var.
  destruct (length s <=? 1)%nat eqn:E; [apply Nat.leb_le in E; lia|].
  unfold fin, of_nat, of_Z. cbn [fdiv].
  pose proof (inject_nat_pos (length s - 1) ltac:(lia)) as Hpos.
  destruct (Qeqb (inject_Z (Z.of_nat (length s - 1))) 0) eqn:E0;
    [apply Qeqb_eq in E0; lra|].
  unfold fin. cbn [fsqrt].
  match goal with
  | |- context [Qltb ?v 0] =>
      assert (Hv : 0 <= v); [|destruct (Qltb v 0) eqn:E1;
                                [apply Qltb_lt in E1; lra|]]
  end.
  - rewrite !Qred_correct. apply Qle_shift_div_l; [exact Hpos|].
    rewrite Qmult_0_l. apply Qsum_from_nonneg; [lra|].
    apply Forall_forall. intros x Hx. apply in_map_iff in Hx.
    destruct Hx as (v & <- & _). apply Qmult_self_nonneg.
  - unfold fin. eexists. split; [reflexivity|].
    rewrite Qred_correct. apply Qsqrt_nonneg.
Qed.

(** The mean of a series that is not empty is a finite number. *)
Lemma mean_finite (s : Pandas.Series) :
  s <> [] -> exists m, Pandas.mean s = Fin m.
Proof.
  destruct s as [|v s]; [congruence|]. intros _.
  unfold Pandas.mean, Pandas.len, fin, of_nat, of_Z. cbn [fdiv].
  pose proof (inject_nat_pos (length (v :: s)) ltac:(cbn; lia)) as Hpos.
  destruct (Qeqb (inject_Z (Z.of_nat (length (v :: s)))) 0) eqn:E0;
    [apply Qeqb_eq in E0; lra|].
  eexists. reflexivity.
Qed.

(** On a window of two points or more whose mean is positive the
    consistency lies between 0 and 100. *)
Lemma consistency_positive_mean (data : Pandas.Series) :
  (2 <= length data)%nat ->
  (Pandas.mean data >? Fin 0)%float = true ->
  in_range 0 100 (PT._calculate_consistency data).
Proof.
  intros Hlen Hmean. rewrite consistency_formula by exact Hlen.
  destruct (std_nonneg data Hlen) as (q & -> & Hq).
  destruct (mean_finite data) as (m & Hm).
  { intros ->. cbn in Hlen. lia. }
  rewrite Hm in *. unfold fgt in Hmean. cbn [flt] in Hmean.
  apply Qltb_lt in Hmean.
  cbn [fdiv]. destruct (Qeqb m 0) eqn:E0; [apply Qeqb_eq in E0; lra|].
  assert (Hcv : 0 <= q / m).
  { apply Qle_shift_div_l; [exact Hmean|]. lra. }
  unfold Py.min2, fin. cbn [flt].
  destruct (Qltb 1 (Qred (q / m))) eqn:E1.
  - vm_compute. split; discriminate.
  - apply Qltb_ge in E1. rewrite Qred_correct in E1.
    unfold fsub, fin. cbn [fneg fadd fmul in_range]. unfold fin.
    cbn [fadd fmul in_range]. unfold fin. cbn [in_range].
    rewrite !Qred_correct. split; lra.
Qed.

(** ** Milestones *)

Lemma removelast_map {A B : Type} (f : A -> B) (l : list A) :
  removelast (map f l) = map f (removelast l).
Proof.
  induction l as [|a [|b l] IH]; [reflexivity|reflexivity|].
  cbn [map removelast] in *. now rewrite IH.
Qed.

Lemma combine_map_self {A B : Type} (f : A -> B) (l : list A) :
  combine l (map f l) = map (fun a => (a, f a)) l.
Proof. induction l as [|a l IH]; cbn; [reflexivity|now rewrite IH]. Qed.

Lemma combine_snoc {A B : Type} (l : list A) (l' : list B) (a : A) (b : B) :
  length l = length l' ->
  combine (l ++ [a]) (l' ++ [b]) = combine l l' ++ [(a, b)].
Proof.
  revert l'. induction l as [|x l IH]; intros [|y l'] H; try discriminate H.
  - reflexivity.
  - cbn. rewrite IH; [reflexivity|]. now injection H.
Qed.

(** The samples of [linspace] between two different end points: the points
    [start + i * step] and, last, [stop] itself. *)
Lemma linspace_samples (start stop : Q) (k : nat) :
  ~ stop == start ->
  Numpy.linspace start stop (S (S k))
  = map (fun i => Qred (inject_Z (Z.of_nat i)
                        * ((stop - start) / inject_Z (Z.of_nat (S k)))
                        + start))
      (seq 0 (S k))
    ++ [stop].
Proof.
  intros Hne. unfold Numpy.linspace.
  replace (S (S k) - 1)%nat with (S k) by lia.
  change (0 <? S k)%nat with true. change (1 <? S (S k))%nat with true.
  cbv iota.
  assert (Hn : ~ inject_Z (Z.of_nat (S k)) == 0).
  { unfold Qeq. cbn [Qnum Qden inject_Z]. lia. }
  destruct (Qeqb ((stop - start) / inject_Z (Z.of_nat (S k))) 0) eqn:E.
  - apply Qeqb_eq in E. exfalso. apply Hne.
    assert (H : stop - start == 0).
    { rewrite <- (Qmult_div_r (stop - start) _ Hn), E. ring. }
    lra.
  - unfold Numpy.arange. rewrite !map_map, removelast_map.
    rewrite (seq_S (S k) 0), removelast_last. reflexivity.
Qed.

Lemma progress_of_value (current_value target_value v : Q) (n i : nat) :
  ~ target_value == current_value ->
  (0 < n)%nat ->
  v == current_value
       + inject_Z (Z.of_nat i)
         * ((target_value - current_value) / inject_Z (Z.of_nat n)) ->
  exists p,
    ((Fin v - Fin current_value) / (Fin target_value - Fin current_value)
     * Fin 100)%float = Fin p
    /\ p == 100 * inject_Z (Z.of_nat i) / inject_Z (Z.of_nat n).
Proof.
  intros Hne Hn Hv. unfold fsub, fin. cbn [fneg fadd fdiv fin]. unfold fin.
  destruct (Qeqb (Qred (target_value + Qred (- current_value))) 0) eqn:E.
  - apply Qeqb_eq in E. rewrite !Qred_correct in E. exfalso. apply Hne. lra.
  - cbn [fmul]. unfold fin. eexists. split; [reflexivity|].
    rewrite !Qred_correct, Hv.
    assert (Hn' : ~ inject_Z (Z.of_nat n) == 0).
    { unfold Qeq. cbn [Qnum Qden inject_Z]. lia. }
    assert (Hd : ~ target_value + - current_value == 0).
    { apply Qeqb_neq in E. rewrite !Qred_correct in E. exact E. }
    field. split; assumption.
Qed.

(** The milestones that [_track_milestones] generates are [num_milestones]
    in number, of levels 1, 2, ..., and in exact arithmetic evenly spaced
    from the current value to the target. *)
Lemma milestones_evenly_spaced (current_value target_value : Q) (n : nat) :
  ~ target_value == current_value ->
  map PT.level
    (PT.milestones_of current_value target_value
       (Numpy.linspace current_value target_value (n + 1)))
  = seq 1 n
  /\ Forall (evenly_spaced current_value target_value n)
       (PT.milestones_of current_value target_value
          (Numpy.linspace current_value target_value (n + 1))).
Proof.
  intros Hne. destruct n as [|k]; [split; [reflexivity|constructor]|].
  replace (S k + 1)%nat with (S (S k)) by lia.
  rewrite linspace_samples by exact Hne.
  unfold PT.milestones_of.
  cbn [seq map app List.tl].
  rewrite length_app, length_map, length_seq. cbn [length].
  replace (k + 1)%nat with (S k) by lia.
  rewrite (seq_S k 1), combine_snoc by now rewrite length_map, length_seq.
  rewrite combine_map_self, map_app, map_map. cbn [map].
  split.
  - rewrite map_app, map_map. cbn [map PT.level]. rewrite map_id.
    change (1%nat :: seq 2 k) with (seq 1 (S k)). now rewrite seq_S.
  - assert (Hn' : ~ inject_Z (Z.of_nat (S k)) == 0).
    { unfold Qeq. cbn [Qnum Qden inject_Z]. lia. }
    apply Forall_app. split.
    + apply Forall_forall. intros m Hm. apply in_map_iff in Hm.
      destruct Hm as (i & <- & _).
      assert (Hv : Qred (inject_Z (Z.of_nat i)
                         * ((target_value - current_value)
                            / inject_Z (Z.of_nat (S k)))
                         + current_value)
                   == current_value
                      + inject_Z (Z.of_nat i)
                        * ((target_value - current_value)
                           / inject_Z (Z.of_nat (S k))))
        by (rewrite Qred_correct; ring).
      split; [exact Hv|]. cbn [PT.progress PT.level PT.value].
      apply progress_of_value; [exact Hne|lia|exact Hv].
    + constructor; [|constructor].
      assert (Hv : target_value
                   == current_value
                      + inject_Z (Z.of_nat (1 + k))
                        * ((target_value - current_value)
                           / inject_Z (Z.of_nat (S k)))).
      { change (1 + k)%nat with (S k). field. exact Hn'. }
      split; [exact Hv|]. cbn [PT.progress PT.level PT.value].
      apply progress_of_value; [exact Hne|lia|exact Hv].
Qed.

(** One turn of the loop of [_track_milestones]: the progress is kept, a
    reached milestone goes last among the completed ones, another one last
    among the next and remaining ones. *)
Lemma track_milestone_step (current_value : Q)
  (tracking : PT.MilestoneTracking) (m : PT.Milestone) :
  (PT.next_milestone tracking = None -> PT.remaining_milestones tracking = []) ->
  PT.total_progress (PT.track_milestone current_value tracking m)
  = PT.total_progress tracking
  /\ PT.completed_milestones (PT.track_milestone current_value tracking m)
     = PT.completed_milestones tracking
       ++ (if reached current_value m then [m] else [])
  /\ pending (PT.track_milestone current_value tracking m)
     = pending tracking ++ (if reached current_value m then [] else [m])
  /\ (PT.next_milestone (PT.track_milestone current_value tracking m) = None ->
      PT.remaining_milestones (PT.track_milestone current_value tracking m)
      = []).
Proof.
  intros Hinv. unfold PT.track_milestone, reached, pending.
  destruct (Qleb (PT.value m) current_value).
  - cbn. rewrite !app_nil_r. repeat split; try reflexivity. exact Hinv.
  - destruct (PT.next_milestone tracking) as [m0|] eqn:En; cbn.
    + rewrite ?En, ?app_nil_r. repeat split; try reflexivity; discriminate.
    + rewrite (Hinv eq_refl), ?app_nil_r.
      repeat split; try reflexivity; discriminate.
Qed.

(** The loop of [_track_milestones] keeps the progress, appends the reached
    milestones to the completed ones and the others, in order, to the next
    and remaining ones. *)
Lemma track_milestone_fold (current_value : Q)
  (milestones : list PT.Milestone) (tracking : PT.MilestoneTracking) :
  (PT.next_milestone tracking = None -> PT.remaining_milestones tracking = []) ->
  PT.total_progress (fold_left (PT.track_milestone current_value) milestones tracking)
  = PT.total_progress tracking
  /\ PT.completed_milestones
       (fold_left (PT.track_milestone current_value) milestones tracking)
     = PT.completed_milestones tracking
       ++ filter (reached current_value) milestones
  /\ pending (fold_left (PT.track_milestone current_value) milestones tracking)
     = pending tracking
       ++ filter (fun m => negb (reached current_value m)) milestones.
Proof.
  revert tracking.
  induction milestones as [|m ms IH]; intros tracking Hinv.
  - cbn. now rewrite !app_nil_r.
  - cbn [fold_left filter].
    destruct (track_milestone_step current_value tracking m Hinv)
      as (S1 & S2 & S3 & S4).
    destruct (IH _ S4) as (H1 & H2 & H3).
    rewrite H1, H2, H3, S1, S2, S3, <- !app_assoc.
    destruct (reached current_value m); cbn [negb app]; repeat split; reflexivity.
Qed.

(** The loop of [_track_milestones] keeps a remaining milestone only behind
    a next one. *)
Lemma track_milestone_fold_next (current_value : Q)
  (milestones : list PT.Milestone) (tracking : PT.MilestoneTracking) :
  (PT.next_milestone tracking = None -> PT.remaining_milestones tracking = []) ->
  PT.next_milestone
    (fold_left (PT.track_milestone current_value) milestones tracking) = None ->
  PT.remaining_milestones
    (fold_left (PT.track_milestone current_value) milestones tracking) = [].
Proof.
  revert tracking.
  induction milestones as [|m ms IH]; intros tracking Hinv; [exact Hinv|].
  cbn [fold_left]. apply IH.
  apply (track_milestone_step current_value tracking m Hinv).
Qed.

(** A tracking with a milestone that is not reached has a next
    milestone. *)
Lemma pending_next (current_value target_value : Q) (n : nat) :
  pending (PT._track_milestones current_value target_value n) <> [] ->
  exists m,
    PT.next_milestone (PT._track_milestones current_value target_value n)
    = Some m.
Proof.
  unfold pending.
  destruct (PT.next_milestone
              (PT._track_milestones current_value target_value n))
    as [m|] eqn:En; [intros _; exists m; reflexivity|].
  intros H. exfalso. apply H. revert En. unfold PT._track_milestones.
  destruct (negb (Qeqb target_value current_value)); [|reflexivity].
  apply track_milestone_fold_next. reflexivity.
Qed.

(** The progress of a milestone at the target is 100. *)
Lemma progress_at_target (current_value target_value : Q) :
  ~ target_value == current_value ->
  ((Fin target_value - Fin current_value)
   / (Fin target_value - Fin current_value) * Fin 100)%float = Fin 100.
Proof.
  intros Hne. unfold fsub, fin. cbn [fneg fadd fdiv fin]. unfold fin.
  set (x := Qred (target_value + Qred (- current_value))).
  assert (Hx : ~ x == 0).
  { unfold x. rewrite !Qred_correct. lra. }
  clearbody x.
  destruct (Qeqb x 0) eqn:E; [apply Qeqb_eq in E; contradiction|].
  assert (H1 : Qred (x / x) = 1).
  { rewrite (Qred_complete (x / x) 1); [reflexivity|field; exact Hx]. }
  cbn [fmul]. unfold fin. rewrite H1. reflexivity.
Qed.

(** The last milestone is the target itself, the end point that
    [linspace] sets. *)
Lemma milestones_last (current_value target_value : Q) (k : nat) :
  ~ target_value == current_value ->
  exists firsts,
    PT.milestones_of current_value target_value
      (Numpy.linspace current_value target_value (S k + 1))
    = firsts ++ [{| PT.level := S k; PT.value := target_value;
                    PT.progress := Fin 100 |}]
    /\ map PT.level firsts = seq 1 k.
Proof.
  intros Hne.
  replace (S k + 1)%nat with (S (S k)) by lia.
  rewrite linspace_samples by exact Hne.
  unfold PT.milestones_of.
  cbn [seq map app List.tl].
  rewrite length_app, length_map, length_seq. cbn [length].
  replace (k + 1)%nat with (S k) by lia.
  rewrite (seq_S k 1), combine_snoc by now rewrite length_map, length_seq.
  rewrite combine_map_self, map_app, map_map. cbn [map].
  rewrite (progress_at_target current_value target_value Hne).
  eexists. split; [reflexivity|].
  rewrite map_map. cbn [PT.level]. apply map_id.
Qed.

(** The values of the milestones are the samples after the first one. *)
Lemma milestones_values (current_value target_value : Q) (samples : list Q) :
  map PT.value (PT.milestones_of current_value target_value samples)
  = List.tl samples.
Proof.
  unfold PT.milestones_of. rewrite map_map. cbn [PT.value].
  generalize (List.tl samples) as l. intros l.
  generalize 1%nat as s.
  induction l as [|v l IH]; intros s; [reflexivity|].
  cbn [length seq combine map snd]. now rewrite IH.
Qed.

(** The values of the milestones lie between the current value and the
    target. *)
Lemma milestones_between (current_value target_value : Q) (n : nat) :
  ~ target_value == current_value ->
  Forall (fun m => between current_value target_value (PT.value m))
    (PT.milestones_of current_value target_value
       (Numpy.linspace current_value target_value (n + 1))).
Proof.
  intros Hne.
  destruct (milestones_evenly_spaced current_value target_value n Hne)
    as [Hlevels Hspaced].
  rewrite Forall_forall in *. intros m Hm.
  destruct (Hspaced m Hm) as [Hv _].
  assert (Hl : In (PT.level m) (seq 1 n))
    by (rewrite <- Hlevels; apply in_map, Hm).
  apply in_seq in Hl.
  assert (Hn : (1 <= n)%nat) by lia.
  assert (Hlz : 0 <= inject_Z (Z.of_nat (PT.level m)))
    by (unfold Qle; cbn; lia).
  assert (Hln : inject_Z (Z.of_nat (PT.level m)) <= inject_Z (Z.of_nat n))
    by (unfold Qle; cbn; lia).
  pose proof (inject_nat_pos n Hn) as Hnpos.
  set (l := inject_Z (Z.of_nat (PT.level m))) in *.
  set (d := inject_Z (Z.of_nat n)) in *.
  clearbody l d.
  assert (Hfrac : 0 <= l / d /\ l / d <= 1).
  { split; [apply Qle_shift_div_l; lra|apply Qle_shift_div_r; lra]. }
  assert (Hv' : PT.value m
                == current_value + (l / d) * (target_value - current_value))
    by (rewrite Hv; field; lra).
  set (f := l / d) in *. clearbody f. destruct Hfrac as [Hf0 Hf1].
  unfold between. rewrite Hv'.
  destruct (Qlt_le_dec current_value target_value) as [Hlt|Hge].
  - left. split; nra.
  - right. split; nra.
Qed.

(** * Further properties *)

Import Week.

(** ** Sorting *)

Lemma insert_reverse_partition {A : Type} (key : A -> bool) (x : A)
  (firsts lasts : list A) :
  Forall (fun y => key y = true) firsts ->
  Forall (fun y => key y = false) lasts ->
  PySort.insert_reverse key x (firsts ++ lasts)
  = if key x then x :: firsts ++ lasts else firsts ++ x :: lasts.
Proof.
  intros Hf Hl. induction Hf as [|y firsts Hy _ IH]; cbn [app].
  - destruct Hl as [|y lasts Hy _]; cbn [PySort.insert_reverse].
    + destruct (key x); reflexivity.
    + rewrite Hy. cbn [andb]. destruct (key x); reflexivity.
  - cbn [PySort.insert_reverse]. rewrite Hy. cbn [andb].
    destruct (key x) eqn:E; cbn [negb].
    + reflexivity.
    + rewrite IH. reflexivity.
Qed.

(** A descending stable sort on a boolean key puts the elements whose key
    is true first and the others last, each group in its former order. *)
Lemma sort_reverse_partition {A : Type} (key : A -> bool) (l : list A) :
  PySort.sort_reverse key l
  = filter key l ++ filter (fun x => negb (key x)) l.
Proof.
  induction l as [|x l IH]; [reflexivity|].
  unfold PySort.sort_reverse in *. cbn [fold_right filter]. rewrite IH.
  rewrite insert_reverse_partition.
  - destruct (key x); reflexivity.
  - apply Forall_forall. intros y Hy. apply filter_In in Hy. tauto.
  - apply Forall_forall. intros y Hy. apply filter_In in Hy.
    destruct Hy as [_ Hy]. now apply negb_true_iff in Hy.
Qed.

Lemma sort_reverse_In {A : Type} (key : A -> bool) (l : list A) (x : A) :
  In x (PySort.sort_reverse key l) <-> In x l.
Proof.
  rewrite sort_reverse_partition, in_app_iff, !filter_In.
  destruct (key x); cbn [negb]; intuition congruence.
Qed.

Lemma sort_reverse_length {A : Type} (key : A -> bool) (l : list A) :
  length (PySort.sort_reverse key l) = length l.
Proof.
  rewrite sort_reverse_partition, length_app.
  induction l as [|x l IH]; [reflexivity|].
  cbn [filter]. destruct (key x); cbn [negb length]; lia.
Qed.

(** ** Recommendations *)

(** X1: [generate_recommendations] lists the high priorities first and the
    medium ones last; it has a recommendation for a metric exactly when
    the analysis of the metric asks for improvement, one apiece. *)
Theorem recommendations_high_first
  (analysis_results : list (string * MetricAnalysis)) :
  (exists highs mediums,
      PR.generate_recommendations analysis_results = highs ++ mediums
      /\ Forall (fun r => PR.priority r = PR.high) highs
      /\ Forall (fun r => PR.priority r = PR.medium) mediums)
  /\ (forall r,
        In r (PR.generate_recommendations analysis_results) <->
        exists metric analysis,
          In (metric, analysis) analysis_results
          /\ needs_improvement (improvement_analysis analysis) = true
          /\ r = PR.recommendation_of metric analysis)
  /\ length (PR.generate_recommendations analysis_results)
     = length (filter (fun entry =>
                         needs_improvement (improvement_analysis (snd entry)))
                 analysis_results).
Proof.
  unfold PR.generate_recommendations. split; [|split].
  - rewrite sort_reverse_partition. eexists _, _. split; [reflexivity|].
    split; apply Forall_forall; intros r Hr; apply filter_In in Hr;
      destruct Hr as [_ Hr]; destruct (PR.priority r);
      cbn in Hr; congruence.
  - intros r. rewrite sort_reverse_In, in_flat_map. split.
    + intros ([metric analysis] & Hin & Hr).
      destruct (needs_improvement (improvement_analysis analysis)) eqn:E;
        [|destruct Hr].
      destruct Hr as [<-|[]]. exists metric, analysis. auto.
    + intros (metric & analysis & Hin & Hn & ->).
      exists (metric, analysis). split; [exact Hin|].
      rewrite Hn. left. reflexivity.
  - rewrite sort_reverse_length.
    induction analysis_results as [|[metric analysis] rest IH];
      [reflexivity|].
    cbn [flat_map filter snd].
    destruct (needs_improvement (improvement_analysis analysis));
      cbn [app length]; rewrite IH; reflexivity.
Qed.

(** ** The analysis of a frame *)

Lemma in_dict_set {V : Type} (d : list (string * V)) (k : string) (v : V)
  (entry : string * V) :
  In entry (Py.dict_set d k v) -> entry = (k, v) \/ In entry d.
Proof.
  induction d as [|[k0 w] d IH]; cbn [Py.dict_set].
  - intros [<-|[]]. left. reflexivity.
  - destruct (String.eqb k0 k) eqn:E.
    + apply String.eqb_eq in E. subst k0.
      intros [<-|H]; [left; reflexivity|right; right; exact H].
    + intros [<-|H]; [right; left; reflexivity|].
      destruct (IH H) as [->|H']; [left; reflexivity|right; right; exact H'].
Qed.

(** [analyze_column] returns on a column that is not empty; on the empty
    one the regression of scipy up to 1.15 raises. *)
Lemma analyze_column_raises (student_t_pvalue : Z -> float -> float)
  (self : PerformanceAnalyzer.t) (data : Pandas.Series) (column : string) :
  (data = [] ->
   analyze_column student_t_pvalue self data column = Py.Raise Py.ValueError)
  /\ (data <> [] ->
      exists m,
        analyze_column student_t_pvalue self data column = Py.Ok m
        /\ improvement_analysis m
           = _analyze_improvement_needs data
               (Pandas.drop_masked data (fst (detect_outliers self data)))
               column).
Proof.
  split.
  - intros ->. reflexivity.
  - intros Hne.
    destruct (calculate_trend_ok student_t_pvalue data Hne) as [tr Htr].
    eexists. split; [apply analyze_column_ok, Htr|]. reflexivity.
Qed.

Lemma analyze_columns_ok (student_t_pvalue : Z -> float -> float)
  (self : PerformanceAnalyzer.t) (historical_data : list (string * Pandas.Series))
  (columns : list string) (acc : list (string * MetricAnalysis)) :
  (forall column,
     In column columns -> Py.dict_get historical_data column <> Some []) ->
  exists metrics,
    analyze_columns student_t_pvalue self historical_data columns acc
    = Py.Ok metrics
    /\ (forall name,
          Py.dict_get metrics name <> None <->
          Py.dict_get acc name <> None
          \/ (In name columns /\ Py.dict_get historical_data name <> None))
    /\ (forall name m,
          In (name, m) metrics ->
          In (name, m) acc
          \/ exists data,
               Py.dict_get historical_data name = Some data
               /\ improvement_analysis m
                  = _analyze_improvement_needs data
                      (Pandas.drop_masked data
                         (fst (detect_outliers self data)))
                      name).
Proof.
  revert acc. induction columns as [|column rest IH]; intros acc Hne.
  - exists acc. split; [reflexivity|]. split.
    + intros name. split; [tauto|]. intros [H|[[] _]]. exact H.
    + intros name m H. left. exact H.
  - cbn [analyze_columns].
    destruct (Py.dict_get historical_data column) as [data|] eqn:Ed.
    + assert (Hd : data <> []).
      { intros ->. apply (Hne column); [left; reflexivity|exact Ed]. }
      destruct (proj2 (analyze_column_raises student_t_pvalue self data column)
                  Hd) as (m & -> & Hm).
      cbn [Py.bind].
      destruct (IH (Py.dict_set acc column m)) as (metrics & Heq & Hkeys & Hin).
      { intros c Hc. apply Hne. right. exact Hc. }
      exists metrics. split; [exact Heq|]. split.
      * intros name. rewrite Hkeys, dict_get_set.
        destruct (String.eqb column name) eqn:En.
        -- apply String.eqb_eq in En. subst name. split; intros _.
           ++ right. split; [left; reflexivity|]. rewrite Ed. discriminate.
           ++ left. discriminate.
        -- apply String.eqb_neq in En. split.
           ++ intros [H|[H1 H2]]; [left; exact H|].
              right. split; [right; exact H1|exact H2].
           ++ intros [H|[[H1|H1] H2]]; [left; exact H|congruence|].
              right. split; assumption.
      * intros name m' H. destruct (Hin name m' H) as [H'|H']; [|right; exact H'].
        apply in_dict_set in H'. destruct H' as [[= -> ->]|H'];
          [|left; exact H'].
        right. exists data. split; [exact Ed|exact Hm].
    + destruct (IH acc) as (metrics & Heq & Hkeys & Hin).
      { intros c Hc. apply Hne. right. exact Hc. }
      exists metrics. split; [exact Heq|]. split.
      * intros name. rewrite Hkeys. split.
        -- intros [H|[H1 H2]]; [left; exact H|].
           right. split; [right; exact H1|exact H2].
        -- intros [H|[[H1|H1] H2]]; [left; exact H| |].
           ++ subst name. congruence.
           ++ right. split; assumption.
      * exact Hin.
Qed.

(** With the regression of scipy up to 1.15 an empty metric column makes
    the loop raise. *)
Lemma analyze_columns_raise (student_t_pvalue : Z -> float -> float)
  (self : PerformanceAnalyzer.t) (historical_data : list (string * Pandas.Series))
  (columns : list string) (acc : list (string * MetricAnalysis))
  (column : string) :
  In column columns ->
  Py.dict_get historical_data column = Some [] ->
  analyze_columns student_t_pvalue self historical_data columns acc
  = Py.Raise Py.ValueError.
Proof.
  intros Hin Hd. revert acc.
  induction columns as [|c rest IH]; intros acc; [destruct Hin|].
  cbn [analyze_columns].
  destruct (Py.dict_get historical_data c) as [data|] eqn:Ed.
  - destruct (analyze_column student_t_pvalue self data c) as [m|[]] eqn:Ec;
      cbn [Py.bind]; [|reflexivity].
    destruct Hin as [->|Hin]; [|apply IH, Hin].
    rewrite Hd in Ed. injection Ed as <-.
    rewrite (proj1 (analyze_column_raises student_t_pvalue self [] column)
               eq_refl) in Ec.
    discriminate Ec.
  - destruct Hin as [->|Hin]; [congruence|apply IH, Hin].
Qed.

(** X2: on a frame whose metric columns are not empty,
    [analyze_performance] returns an analysis for each of the four metrics
    that is a column of the frame, and for no other column. *)
Theorem analyze_performance_columns
  (student_t_pvalue : Z -> float -> float) (self : PerformanceAnalyzer.t)
  (historical_data : list (string * Pandas.Series)) :
  (forall column,
     In column metric_columns ->
     Py.dict_get historical_data column <> Some []) ->
  exists metrics,
    analyze_performance student_t_pvalue self historical_data
    = Py.Ok metrics
    /\ forall name,
         Py.dict_get metrics name <> None <->
         In name metric_columns
         /\ Py.dict_get historical_data name <> None.
Proof.
  unfold analyze_performance. intros Hne.
  destruct (analyze_columns_ok student_t_pvalue self historical_data
              metric_columns [] Hne) as (metrics & Heq & Hkeys & _).
  exists metrics. split; [exact Heq|].
  intros name. rewrite Hkeys. cbn [Py.dict_get]. split.
  - intros [H|H]; [congruence|exact H].
  - intros H. right. exact H.
Qed.

Lemma analyze_performance_columns_witness :
  exists metrics,
    analyze_performance (fun _ _ => NaN) (init None)
      [("kills"%string, flat_then_dip); ("accuracy"%string, flat_then_dip)]
    = Py.Ok metrics
    /\ Py.dict_get metrics "kills" = None
    /\ Py.dict_get metrics "accuracy" <> None.
Proof.
  destruct (analyze_performance_columns (fun _ _ => NaN) (init None)
              [("kills"%string, flat_then_dip);
               ("accuracy"%string, flat_then_dip)])
    as (metrics & Heq & Hkeys).
  { intros column Hin.
    destruct Hin as [<-|[<-|[<-|[<-|[]]]]]; cbn; discriminate. }
  exists metrics. split; [exact Heq|]. split.
  - destruct (Py.dict_get metrics "kills") eqn:E; [exfalso|reflexivity].
    assert (H : Py.dict_get metrics "kills" <> None)
      by (rewrite E; discriminate).
    apply Hkeys in H. destruct H as [H _].
    destruct H as [H|[H|[H|[H|[]]]]]; discriminate H.
  - apply Hkeys. split; [cbn; tauto|cbn; discriminate].
Defined.

(** ** Polarity of the metrics *)

(** X3: for every metric name but "reaction_time" the improvement analysis
    is the one of "accuracy": higher is better, threshold -1; an unknown
    name is treated like the three known ones. *)
Theorem improvement_needs_polarity
  (raw_data clean_data : Pandas.Series) (metric : string) :
  metric <> "reaction_time"%string ->
  _analyze_improvement_needs raw_data clean_data metric
  = _analyze_improvement_needs raw_data clean_data "accuracy".
Proof.
  intros Hne. unfold _analyze_improvement_needs.
  assert (Hc : config_of metric = config_of "accuracy").
  { unfold config_of, metric_configs. cbn [Py.dict_get].
    assert (E : String.eqb "reaction_time" metric = false)
      by (apply String.eqb_neq; congruence).
    rewrite E.
    repeat match goal with
           | |- context [String.eqb ?a metric] => destruct (String.eqb a metric)
           end; reflexivity. }
  rewrite Hc. reflexivity.
Qed.

Lemma improvement_needs_polarity_witness :
  _analyze_improvement_needs depressed_tail depressed_tail "kill_count"
  = _analyze_improvement_needs depressed_tail depressed_tail "accuracy".
Proof. apply improvement_needs_polarity. discriminate. Defined.

(** Where lower is better, an analysis that asks for improvement has a
    z-score above 1. *)
Lemma reaction_time_z_score (raw_data clean_data : Pandas.Series) :
  needs_improvement
    (_analyze_improvement_needs raw_data clean_data "reaction_time") = true ->
  (z_score (_analyze_improvement_needs raw_data clean_data "reaction_time")
   <? Fin (-2))%float = false.
Proof.
  unfold _analyze_improvement_needs.
  change (config_of "reaction_time")
    with {| threshold := Fin 1; higher_better := false |}.
  cbn [needs_improvement z_score higher_better threshold].
  generalize ((Pandas.mean (Pandas.tail recent_window raw_data)
               - Pandas.mean clean_data) / Pandas.std clean_data)%float.
  intros z. unfold fgt. destruct z as [q| | |]; cbn [flt]; try discriminate.
  - intros H. apply Qltb_lt in H. apply Qltb_ge. lra.
  - reflexivity.
Qed.

(** X4: a recommendation for the reaction time, computed from the analysis
    of a frame, is never of high priority: it is made when the z-score is
    above 1, and the priority is high when the z-score is below -2. *)
Theorem reaction_time_never_high
  (student_t_pvalue : Z -> float -> float) (self : PerformanceAnalyzer.t)
  (historical_data : list (string * Pandas.Series))
  (analysis_results : list (string * MetricAnalysis))
  (r : PR.Recommendation) :
  analyze_performance student_t_pvalue self historical_data
  = Py.Ok analysis_results ->
  In r (PR.generate_recommendations analysis_results) ->
  PR.metric r = "reaction_time"%string ->
  PR.priority r = PR.medium.
Proof.
  intros Ha Hr Hm.
  unfold PR.generate_recommendations in Hr.
  apply sort_reverse_In, in_flat_map in Hr.
  destruct Hr as ([metric analysis] & Hin & Hr).
  destruct (needs_improvement (improvement_analysis analysis)) eqn:En;
    [|destruct Hr].
  destruct Hr as [<-|[]]. cbn [PR.metric PR.recommendation_of] in Hm.
  subst metric. cbn [PR.priority PR.recommendation_of].
  change (analyze_columns student_t_pvalue self historical_data
            metric_columns [] = Py.Ok analysis_results) in Ha.
  assert (Hne : forall column,
             In column metric_columns ->
             Py.dict_get historical_data column <> Some []).
  { intros column Hc Hd.
    rewrite (analyze_columns_raise student_t_pvalue self historical_data
               metric_columns [] column Hc Hd) in Ha.
    discriminate Ha. }
  destruct (analyze_columns_ok student_t_pvalue self historical_data
              metric_columns [] Hne) as (metrics & Heq & _ & Hentries).
  rewrite Heq in Ha. injection Ha as ->.
  destruct (Hentries _ _ Hin) as [[]|(data & _ & Himp)].
  rewrite Himp in En |- *.
  now rewrite (reaction_time_z_score _ _ En).
Qed.

(** ** Short clean series *)

(** X5: when fewer than two observations are left after the outliers are
    taken out, the standard deviation is [nan], and so are the z-score and
    the suggested target; no improvement is asked for, whatever the
    metric. *)
Theorem improvement_needs_short_clean
  (raw_data clean_data : Pandas.Series) (metric : string) :
  (length clean_data < 2)%nat ->
  z_score (_analyze_improvement_needs raw_data clean_data metric) = NaN
  /\ needs_improvement (_analyze_improvement_needs raw_data clean_data metric)
     = false
  /\ suggested_target (_analyze_improvement_needs raw_data clean_data metric)
     = NaN.
Proof.
  intros Hlen. unfold _analyze_improvement_needs.
  cbn [z_score needs_improvement suggested_target].
  assert (Hs : Pandas.std clean_data = NaN).
  { unfold Pandas.std, Pandas.var.
    destruct (length clean_data <=? 1)%nat eqn:E; [reflexivity|].
    apply Nat.leb_gt in E. lia. }
  rewrite Hs.
  assert (Hz : forall x, (x / NaN)%float = NaN) by (intros []; reflexivity).
  rewrite Hz. split; [reflexivity|]. split.
  - destruct (higher_better (config_of metric)); [reflexivity|].
    unfold fgt. destruct (threshold (config_of metric)); reflexivity.
  - destruct (higher_better (config_of metric));
      destruct (Pandas.mean clean_data); reflexivity.
Qed.

Lemma improvement_needs_short_clean_witness :
  z_score (_analyze_improvement_needs [70] [70] "accuracy") = NaN
  /\ needs_improvement (_analyze_improvement_needs [70] [70] "accuracy")
     = false
  /\ suggested_target (_analyze_improvement_needs [70] [70] "accuracy") = NaN.
Proof. apply improvement_needs_short_clean. cbn. lia. Defined.

(** ** Counting the outliers *)

Lemma drop_masked_length (s : Pandas.Series) (mask : list bool) :
  length mask = length s ->
  (length (Pandas.drop_masked s mask) + length (filter (fun b => b) mask)
   = length s)%nat.
Proof.
  revert mask. induction s as [|v s IH]; intros [|m mask] H;
    try discriminate H; [reflexivity|].
  injection H as H. specialize (IH mask H).
  cbn [Pandas.drop_masked filter]. destruct m; cbn [length]; lia.
Qed.

Lemma filter_length_le {A : Type} (f : A -> bool) (l : list A) :
  (length (filter f l) <= length l)%nat.
Proof.
  induction l as [|x l IH]; [cbn; lia|].
  cbn [filter]. destruct (f x); cbn [length]; lia.
Qed.

(** X6: the mask of [detect_outliers] has one flag for every observation;
    the observations that are kept and the outliers counted add up to the
    series; and the outlier percentage of a series that is not empty is a
    number between 0 and 100. *)
Theorem detect_outliers_counts (self : PerformanceAnalyzer.t)
  (data : Pandas.Series) :
  length (fst (detect_outliers self data)) = length data
  /\ (Z.of_nat (length (Pandas.drop_masked data
                          (fst (detect_outliers self data))))
      + total_outliers (snd (detect_outliers self data))
      = Z.of_nat (length data))%Z
  /\ (data <> [] ->
      in_range 0 100 (outlier_percentage (snd (detect_outliers self data)))).
Proof.
  unfold detect_outliers. cbn [fst snd total_outliers outlier_percentage].
  set (mask := Pandas.outside data _ _).
  assert (Hlen : length mask = length data)
    by (unfold mask, Pandas.outside; apply length_map).
  split; [exact Hlen|]. split.
  - unfold Pandas.count_true.
    pose proof (drop_masked_length data mask Hlen). lia.
  - intros Hne. unfold Pandas.count_true, Pandas.len, of_nat, of_Z.
    pose proof (filter_length_le (fun b => b) mask) as Hle.
    rewrite Hlen in Hle.
    set (c := length (filter (fun b => b) mask)) in *.
    assert (Hn : (0 < length data)%nat)
      by (destruct data; [congruence|cbn; lia]).
    assert (Hpos : 0 < inject_Z (Z.of_nat (length data))).
    { unfold Qlt. cbn [Qnum Qden inject_Z]. lia. }
    cbn [fdiv].
    destruct (Qeqb (inject_Z (Z.of_nat (length data))) 0) eqn:E0;
      [apply Qeqb_eq in E0; lra|].
    unfold fin. cbn [fmul in_range]. unfold fin. cbn [in_range].
    rewrite !Qred_correct.
    assert (Hc0 : 0 <= inject_Z (Z.of_nat c)).
    { unfold Qle. cbn [Qnum Qden inject_Z]. lia. }
    assert (Hcn : inject_Z (Z.of_nat c) <= inject_Z (Z.of_nat (length data))).
    { unfold Qle. cbn [Qnum Qden inject_Z]. lia. }
    assert (H0 : 0 <= inject_Z (Z.of_nat c) / inject_Z (Z.of_nat (length data))).
    { apply Qle_shift_div_l; [exact Hpos|]. lra. }
    assert (H1 : inject_Z (Z.of_nat c) / inject_Z (Z.of_nat (length data)) <= 1).
    { apply Qle_shift_div_r; [exact Hpos|]. lra. }
    split; lra.
Qed.

Lemma detect_outliers_counts_witness :
  in_range 0 100
    (outlier_percentage (snd (detect_outliers (init None) flat_then_dip))).
Proof.
  apply (proj2 (proj2 (detect_outliers_counts (init None) flat_then_dip))).
  discriminate.
Defined.

(** ** Quartiles and bounds *)

Lemma insert_sorted_In (x y : Q) (l : list Q) :
  In y (Pandas.insert_sorted x l) <-> y = x \/ In y l.
Proof.
  induction l as [|z l IH]; cbn [Pandas.insert_sorted].
  - cbn. intuition.
  - destruct (Qleb x z); cbn [In]; [intuition|].
    rewrite IH. intuition.
Qed.

Lemma insert_sorted_sorted (x : Q) (l : list Q) :
  StronglySorted Qle l -> StronglySorted Qle (Pandas.insert_sorted x l).
Proof.
  intros H. induction H as [|z l Hs IH Hz]; cbn [Pandas.insert_sorted].
  - constructor; constructor.
  - destruct (Qleb x z) eqn:E.
    + assert (Hxz : x <= z) by (unfold Qleb in E; apply Z.leb_le in E; exact E).
      constructor; [constructor; assumption|].
      constructor; [exact Hxz|].
      apply Forall_forall. intros y Hy.
      rewrite Forall_forall in Hz. specialize (Hz y Hy). lra.
    + assert (Hzx : z <= x).
      { unfold Qleb in E. apply Z.leb_gt in E. unfold Qle. lia. }
      constructor; [exact IH|].
      apply Forall_forall. intros y Hy. apply insert_sorted_In in Hy.
      destruct Hy as [->|Hy]; [exact Hzx|].
      rewrite Forall_forall in Hz. exact (Hz y Hy).
Qed.

Lemma sort_sorted (l : list Q) : StronglySorted Qle (Pandas.sort l).
Proof.
  induction l as [|x l IH]; [constructor|].
  apply insert_sorted_sorted, IH.
Qed.

Lemma insert_sorted_length (x : Q) (l : list Q) :
  length (Pandas.insert_sorted x l) = S (length l).
Proof.
  induction l as [|z l IH]; [reflexivity|].
  cbn [Pandas.insert_sorted]. destruct (Qleb x z); cbn [length]; lia.
Qed.

Lemma sort_length (l : list Q) : length (Pandas.sort l) = length l.
Proof.
  induction l as [|x l IH]; [reflexivity|].
  unfold Pandas.sort in *. cbn [fold_right].
  rewrite insert_sorted_length, IH. reflexivity.
Qed.

Lemma nth_sorted (v : list Q) (d : Q) (i j : nat) :
  StronglySorted Qle v -> (i <= j)%nat -> (j < length v)%nat ->
  nth i v d <= nth j v d.
Proof.
  intros H. revert i j. induction H as [|a l Hs IH Ha]; intros i j Hij Hj.
  - cbn in Hj. lia.
  - destruct j as [|j]; [replace i with 0%nat by lia; cbn; lra|].
    cbn [length] in Hj. destruct i as [|i].
    + cbn [nth]. rewrite Forall_forall in Ha. apply Ha, nth_In. lia.
    + cbn [nth]. apply IH; lia.
Qed.

(** The quantiles of a series that is not empty are finite, and they grow
    with the rank. *)
Lemma quantile_monotone (s : Pandas.Series) (q1 q2 : Q) :
  s <> [] -> 0 <= q1 -> q1 <= q2 -> q2 <= 1 ->
  exists a b,
    Pandas.quantile s q1 = Fin a /\ Pandas.quantile s q2 = Fin b /\ a <= b.
Proof.
  intros Hne H0 H12 H1. unfold Pandas.quantile.
  pose proof (sort_sorted s) as Hsorted.
  pose proof (sort_length s) as Hlen.
  destruct (Pandas.sort s) as [|v0 v'] eqn:Ev.
  { destruct s; [congruence|discriminate Hlen]. }
  set (v := v0 :: v') in *.
  set (n := length v) in *.
  assert (Hn : (1 <= n)%nat) by (unfold n, v; cbn; lia).
  set (N := inject_Z (Z.of_nat (n - 1))).
  assert (HN : 0 <= N) by (unfold N, Qle; cbn [Qnum Qden inject_Z]; lia).
  assert (Hp1 : 0 <= q1 * N) by (apply Qmult_le_0_compat; assumption).
  assert (Hp12 : q1 * N <= q2 * N) by (apply Qmult_le_compat_r; assumption).
  assert (Hp2 : q2 * N <= N).
  { setoid_replace N with (1 * N) at 2 by ring.
    apply Qmult_le_compat_r; assumption. }
  set (p1 := q1 * N) in *. set (p2 := q2 * N) in *.
  assert (Hf1 : (0 <= Qfloor p1)%Z).
  { change 0%Z with (Qfloor 0). apply Qfloor_resp_le, Hp1. }
  assert (Hf12 : (Qfloor p1 <= Qfloor p2)%Z) by apply Qfloor_resp_le, Hp12.
  assert (Hf2 : (Qfloor p2 <= Z.of_nat (n - 1))%Z).
  { rewrite <- (Qfloor_Z (Z.of_nat (n - 1))). apply Qfloor_resp_le, Hp2. }
  pose proof (Qfloor_le p1) as Hl1. pose proof (Qlt_floor p1) as Hu1.
  pose proof (Qfloor_le p2) as Hl2. pose proof (Qlt_floor p2) as Hu2.
  rewrite inject_Z_plus in Hu1, Hu2.
  change (inject_Z 1) with 1 in Hu1, Hu2.
  set (f1 := Qfloor p1) in *. set (f2 := Qfloor p2) in *.
  set (lo1 := Z.to_nat f1). set (lo2 := Z.to_nat f2).
  set (hi1 := Nat.min (lo1 + 1) (n - 1)). set (hi2 := Nat.min (lo2 + 1) (n - 1)).
  assert (Ha1 : nth lo1 v v0 <= nth hi1 v v0)
    by (apply nth_sorted; [exact Hsorted|unfold hi1, lo1; lia|unfold hi1; lia]).
  assert (Ha2 : nth lo2 v v0 <= nth hi2 v v0)
    by (apply nth_sorted; [exact Hsorted|unfold hi2, lo2; lia|unfold hi2; lia]).
  eexists _, _. split; [reflexivity|]. split; [reflexivity|].
  rewrite !Qred_correct.
  set (a1 := nth lo1 v v0) in *. set (b1 := nth hi1 v v0) in *.
  set (a2 := nth lo2 v v0) in *. set (b2 := nth hi2 v v0) in *.
  set (r1 := p1 - inject_Z f1). set (r2 := p2 - inject_Z f2).
  assert (Hr1 : 0 <= r1 /\ r1 <= 1) by (unfold r1; split; lra).
  assert (Hr2 : 0 <= r2 /\ r2 <= 1) by (unfold r2; split; lra).
  destruct (Z.eq_dec f1 f2) as [Heq|Hneq].
  - assert (Hr : r1 <= r2) by (unfold r1, r2; rewrite Heq; lra).
    assert (Ea : a2 = a1) by (unfold a1, a2, lo1, lo2; now rewrite Heq).
    assert (Eb : b2 = b1)
      by (unfold b1, b2, hi1, hi2, lo1, lo2; now rewrite Heq).
    rewrite Ea, Eb.
    assert (Hm : (b1 - a1) * r1 <= (b1 - a1) * r2).
    { rewrite !(Qmult_comm (b1 - a1)). apply Qmult_le_compat_r; lra. }
    lra.
  - assert (Hb1a2 : b1 <= a2).
    { unfold b1, a2. apply nth_sorted;
        [exact Hsorted|unfold hi1, lo1, lo2; lia|unfold lo2; lia]. }
    assert (Hm1 : (b1 - a1) * r1 <= (b1 - a1) * 1).
    { rewrite !(Qmult_comm (b1 - a1)). apply Qmult_le_compat_r; lra. }
    assert (Hm2 : 0 <= (b2 - a2) * r2) by (apply Qmult_le_0_compat; lra).
    lra.
Qed.

(** X7: for a series that is not empty and a multiplier that is not
    negative, the quartiles and the bounds of [detect_outliers] are finite
    and in order, lower bound, Q1, Q3, upper bound, and no observation from
    Q1 to Q3 is flagged. *)
Theorem detect_outliers_bounds (self : PerformanceAnalyzer.t)
  (data : Pandas.Series) :
  data <> [] ->
  0 <= threshold_multiplier self ->
  exists lower q1 q3 upper,
    lower_bound (snd (detect_outliers self data)) = Fin lower
    /\ Pandas.quantile data (1 # 4) = Fin q1
    /\ Pandas.quantile data (3 # 4) = Fin q3
    /\ upper_bound (snd (detect_outliers self data)) = Fin upper
    /\ lower <= q1 /\ q1 <= q3 /\ q3 <= upper
    /\ Forall (fun '(v, flagged) => q1 <= v -> v <= q3 -> flagged = false)
         (combine data (fst (detect_outliers self data))).
Proof.
  intros Hne Hk.
  destruct (quantile_monotone data (1 # 4) (3 # 4) Hne) as (q1 & q3 & E1 & E3 & H13);
    [lra|lra|lra|].
  unfold detect_outliers. cbn [fst snd lower_bound upper_bound].
  rewrite E1, E3. unfold fsub.
  repeat (unfold fin; cbn [fneg fadd fmul]).
  set (k := threshold_multiplier self) in *.
  match goal with
  | |- context [Pandas.outside data (Fin ?lo) (Fin ?up)] =>
      set (lower := lo) in *; set (upper := up) in *
  end.
  assert (Hi : 0 <= k * (q3 + - q1)) by (apply Qmult_le_0_compat; lra).
  assert (Hlo : lower <= q1) by (unfold lower; rewrite !Qred_correct; lra).
  assert (Hup : q3 <= upper) by (unfold upper; rewrite !Qred_correct; lra).
  clearbody lower upper.
  exists lower, q1, q3, upper.
  do 4 (split; [reflexivity|]).
  split; [exact Hlo|]. split; [exact H13|]. split; [exact Hup|].
  unfold Pandas.outside. rewrite combine_map_self.
  apply Forall_forall. intros [v flagged] Hin. apply in_map_iff in Hin.
  destruct Hin as (w & Hw & _). injection Hw as -> <-. intros Hv1 Hv3.
  unfold fgt. cbn [flt]. apply orb_false_iff. split; apply Qltb_ge; lra.
Qed.

Lemma detect_outliers_bounds_witness :
  exists lower q1 q3 upper,
    lower_bound (snd (detect_outliers (init None) depressed_tail)) = Fin lower
    /\ Pandas.quantile depressed_tail (1 # 4) = Fin q1
    /\ Pandas.quantile depressed_tail (3 # 4) = Fin q3
    /\ upper_bound (snd (detect_outliers (init None) depressed_tail))
       = Fin upper
    /\ lower <= q1 /\ q1 <= q3 /\ q3 <= upper
    /\ Forall (fun '(v, flagged) => q1 <= v -> v <= q3 -> flagged = false)
         (combine depressed_tail
            (fst (detect_outliers (init None) depressed_tail))).
Proof.
  apply (detect_outliers_bounds (init None) depressed_tail).
  - discriminate.
  - vm_compute. discriminate.
Defined.

(** ** Milestones above and below the current value *)

Lemma filter_none {A : Type} (f : A -> bool) (l : list A) :
  Forall (fun x => f x = false) l -> filter f l = [].
Proof.
  induction 1 as [|x l Hx _ IH]; [reflexivity|].
  cbn [filter]. now rewrite Hx.
Qed.

Lemma filter_all {A : Type} (f : A -> bool) (l : list A) :
  Forall (fun x => f x = true) l -> filter f l = l.
Proof.
  induction 1 as [|x l Hx _ IH]; [reflexivity|].
  cbn [filter]. now rewrite Hx, IH.
Qed.

(** The progress of [_track_milestones] towards a target that differs from
    the current value: 0 for a target above it, 100 for a target below. *)
Lemma total_progress_sign (current_value target_value : Q) :
  let total_progress :=
    ((Fin current_value - Fin target_value)
     / fabs (Fin target_value - Fin current_value))%float in
  (current_value < target_value ->
   Py.max2 (Fin 0) (Py.min2 (Fin 100) (total_progress * Fin 100)%float)
   = Fin 0)
  /\ (target_value < current_value ->
      Py.max2 (Fin 0) (Py.min2 (Fin 100) (total_progress * Fin 100)%float)
      = Fin 100).
Proof.
  cbv zeta. unfold fsub.
  repeat (unfold fin; cbn [fneg fadd fabs]).
  set (u := Qred (current_value + Qred (- target_value))).
  set (w := Qred (Qabs (Qred (target_value + Qred (- current_value))))).
  assert (Hu : u == current_value - target_value)
    by (unfold u; rewrite !Qred_correct; ring).
  assert (Hw : w == Qabs (target_value - current_value)).
  { unfold w. rewrite !Qred_correct. apply Qabs_wd. ring. }
  clearbody u w.
  split; intros Hlt.
  - rewrite Qabs_pos in Hw by lra.
    cbn [fdiv]. destruct (Qeqb w 0) eqn:E0; [apply Qeqb_eq in E0; lra|].
    unfold fin. cbn [fmul]. unfold fin.
    assert (Hq : u / w <= 0).
    { apply Qle_shift_div_r; lra. }
    unfold Py.min2, Py.max2, fgt. cbn [flt].
    destruct (Qltb (Qred (Qred (u / w) * 100)) 100) eqn:E1; cbn [flt].
    + destruct (Qltb 0 (Qred (Qred (u / w) * 100))) eqn:E2; [|reflexivity].
      apply Qltb_lt in E2. rewrite !Qred_correct in E2. lra.
    + apply Qltb_ge in E1. rewrite !Qred_correct in E1. lra.
  - rewrite Qabs_neg in Hw by lra.
    cbn [fdiv]. destruct (Qeqb w 0) eqn:E0; [apply Qeqb_eq in E0; lra|].
    unfold fin. cbn [fmul]. unfold fin.
    assert (Hq : 1 <= u / w).
    { apply Qle_shift_div_l; lra. }
    unfold Py.min2, Py.max2, fgt. cbn [flt].
    destruct (Qltb (Qred (Qred (u / w) * 100)) 100) eqn:E1; cbn [flt].
    + apply Qltb_lt in E1. rewrite !Qred_correct in E1. lra.
    + reflexivity.
Qed.

(** In exact arithmetic the value of a milestone lies on the side of the
    target, apart from the current value. *)
Lemma milestone_side (current_value target_value : Q) (n : nat)
  (m : PT.Milestone) :
  In m (PT.milestones_of current_value target_value
          (Numpy.linspace current_value target_value (n + 1))) ->
  (current_value < target_value -> current_value < PT.value m)
  /\ (target_value < current_value -> PT.value m < current_value).
Proof.
  intros Hin.
  assert (Hne : current_value < target_value \/ target_value < current_value ->
                ~ target_value == current_value) by (intros [H|H]; lra).
  assert (Hside : ~ target_value == current_value ->
            (1 <= PT.level m)%nat /\ (1 <= n)%nat
            /\ PT.value m
               == current_value
                  + inject_Z (Z.of_nat (PT.level m))
                    * ((target_value - current_value)
                       / inject_Z (Z.of_nat n))).
  { intros H.
    destruct (milestones_evenly_spaced current_value target_value n H)
      as [Hlevels Hspaced].
    assert (Hl : In (PT.level m) (seq 1 n))
      by (rewrite <- Hlevels; apply in_map, Hin).
    apply in_seq in Hl. rewrite Forall_forall in Hspaced.
    destruct (Hspaced m Hin) as [Hv _]. repeat split; [lia|lia|exact Hv]. }
  split; intros Hlt;
    destruct (Hside (Hne ltac:(auto))) as (Hl & Hn & Hv);
    pose proof (inject_nat_pos n Hn) as Hnpos;
    pose proof (inject_nat_pos (PT.level m) Hl) as Hlpos;
    rewrite Hv.
  - assert (Hstep : 0 < (target_value - current_value) / inject_Z (Z.of_nat n)).
    { apply Qlt_shift_div_l; lra. }
    pose proof (Qmult_lt_0_compat _ _ Hlpos Hstep). lra.
  - assert (Hstep : 0 < (current_value - target_value) / inject_Z (Z.of_nat n)).
    { apply Qlt_shift_div_l; lra. }
    pose proof (Qmult_lt_0_compat _ _ Hlpos Hstep) as Hp.
    setoid_replace ((target_value - current_value) / inject_Z (Z.of_nat n))
      with (- ((current_value - target_value) / inject_Z (Z.of_nat n)))
      by (field; lra).
    lra.
Qed.

(** The tracking towards a target that differs from the current value:
    the clamped progress, the reached milestones completed, the others
    next and remaining. *)
Lemma track_milestones_split (current_value target_value : Q) (n : nat) :
  ~ target_value == current_value ->
  PT.total_progress (PT._track_milestones current_value target_value n)
  = Py.max2 (Fin 0)
      (Py.min2 (Fin 100)
         ((Fin current_value - Fin target_value)
          / fabs (Fin target_value - Fin current_value) * Fin 100)%float)
  /\ PT.completed_milestones
       (PT._track_milestones current_value target_value n)
     = filter (reached current_value)
         (PT.milestones_of current_value target_value
            (Numpy.linspace current_value target_value (n + 1)))
  /\ pending (PT._track_milestones current_value target_value n)
     = filter (fun m => negb (reached current_value m))
         (PT.milestones_of current_value target_value
            (Numpy.linspace current_value target_value (n + 1))).
Proof.
  intros Hne. unfold PT._track_milestones.
  assert (E : Qeqb target_value current_value = false)
    by (apply Qeqb_neq; exact Hne).
  rewrite E. cbn [negb].
  match goal with
  | |- context [fold_left _ ?ms ?t0] =>
      destruct (track_milestone_fold current_value ms t0) as (H1 & H2 & H3);
        [reflexivity|]
  end.
  rewrite H1, H2, H3. repeat split; reflexivity.
Qed.

Lemma milestones_reached (current_value target_value : Q) (n : nat) :
  target_value < current_value ->
  Forall (fun m => reached current_value m = true)
    (PT.milestones_of current_value target_value
       (Numpy.linspace current_value target_value (n + 1))).
Proof.
  intros Hlt. apply Forall_forall. intros m Hm.
  pose proof (proj2 (milestone_side _ _ _ m Hm) Hlt) as Hv.
  unfold reached, Qleb. apply Z.leb_le. unfold Qlt in Hv. lia.
Qed.

(** X8: towards a target above the current value the total progress is 0,
    however close the two are; the target itself, the milestone of the
    last level, is never completed: it is next or remaining, so that there
    is a next milestone, and the completed milestones are of lower
    levels.  Completed, next and remaining milestones are [num_milestones]
    together. *)
Theorem milestones_towards_higher_target (current_value target_value : Q)
  (num_milestones : nat) :
  current_value < target_value ->
  (0 < num_milestones)%nat ->
  let tracking :=
    PT._track_milestones current_value target_value num_milestones in
  PT.total_progress tracking = Fin 0
  /\ (exists m, PT.next_milestone tracking = Some m)
  /\ Forall (fun m => (PT.level m < num_milestones)%nat)
       (PT.completed_milestones tracking)
  /\ In {| PT.level := num_milestones; PT.value := target_value;
           PT.progress := Fin 100 |} (pending tracking)
  /\ (length (PT.completed_milestones tracking) + length (pending tracking)
      = num_milestones)%nat.
Proof.
  intros Hlt Hn. cbv zeta.
  assert (Hne : ~ target_value == current_value) by lra.
  destruct (milestones_evenly_spaced current_value target_value
              num_milestones Hne) as [Hlevels _].
  destruct (track_milestones_split current_value target_value num_milestones
              Hne) as (H1 & H2 & H3).
  destruct num_milestones as [|k]; [lia|].
  destruct (milestones_last current_value target_value k Hne)
    as (firsts & Hms & Hfirsts).
  assert (Hlast : reached current_value
                    {| PT.level := S k; PT.value := target_value;
                       PT.progress := Fin 100 |} = false).
  { unfold reached, Qleb. cbn [PT.value]. apply Z.leb_gt. exact Hlt. }
  assert (Hpend : In {| PT.level := S k; PT.value := target_value;
                        PT.progress := Fin 100 |}
                    (pending (PT._track_milestones current_value target_value
                                (S k)))).
  { rewrite H3, Hms. apply filter_In. split.
    - apply in_or_app. right. left. reflexivity.
    - rewrite Hlast. reflexivity. }
  split; [rewrite H1;
          apply (proj1 (total_progress_sign current_value target_value)), Hlt|].
  split.
  { apply pending_next. intros E. rewrite E in Hpend. destruct Hpend. }
  split.
  { rewrite H2, Hms, filter_app. cbn [filter]. rewrite Hlast, app_nil_r.
    apply Forall_forall. intros m Hm. apply filter_In in Hm.
    destruct Hm as [Hm _].
    assert (Hl : In (PT.level m) (seq 1 k))
      by (rewrite <- Hfirsts; apply in_map, Hm).
    apply in_seq in Hl. lia. }
  split; [exact Hpend|].
  rewrite H2, H3, List.filter_length, <- (length_map PT.level), Hlevels.
  apply length_seq.
Qed.

Lemma milestones_towards_higher_target_witness :
  PT.total_progress (PT._track_milestones 50 100 4) = Fin 0
  /\ (exists m, PT.next_milestone (PT._track_milestones 50 100 4) = Some m)
  /\ (length (PT.completed_milestones (PT._track_milestones 50 100 4))
      + length (pending (PT._track_milestones 50 100 4)) = 4)%nat.
Proof.
  pose proof (milestones_towards_higher_target 50 100 4) as H.
  cbv zeta in H.
  destruct H as (H1 & H2 & _ & _ & H5); [reflexivity|lia|].
  split; [exact H1|]. split; [exact H2|exact H5].
Defined.

(** X9: towards a target below the current value every milestone counts as
    completed, none is next or remaining, and the total progress is 100. *)
Theorem milestones_towards_lower_target (current_value target_value : Q)
  (num_milestones : nat) :
  target_value < current_value ->
  PT.total_progress
    (PT._track_milestones current_value target_value num_milestones) = Fin 100
  /\ map PT.level
       (PT.completed_milestones
          (PT._track_milestones current_value target_value num_milestones))
     = seq 1 num_milestones
  /\ PT.next_milestone
       (PT._track_milestones current_value target_value num_milestones) = None
  /\ PT.remaining_milestones
       (PT._track_milestones current_value target_value num_milestones) = [].
Proof.
  intros Hlt.
  assert (Hne : ~ target_value == current_value) by lra.
  destruct (milestones_evenly_spaced current_value target_value
              num_milestones Hne) as [Hlevels _].
  destruct (track_milestones_split current_value target_value num_milestones
              Hne) as (H1 & H2 & H3).
  pose proof (milestones_reached current_value target_value num_milestones
                Hlt) as Hre.
  rewrite H1, H2.
  rewrite filter_none in H3
    by (eapply Forall_impl; [|exact Hre]; intros m ->; reflexivity).
  split; [apply (proj2 (total_progress_sign current_value target_value)), Hlt|].
  split; [rewrite filter_all by exact Hre; exact Hlevels|].
  unfold pending in H3.
  destruct (PT.next_milestone _); [discriminate H3|].
  split; [reflexivity|exact H3].
Qed.

Lemma milestones_towards_lower_target_witness :
  PT.total_progress (PT._track_milestones 250 200 5) = Fin 100
  /\ map PT.level (PT.completed_milestones (PT._track_milestones 250 200 5))
     = seq 1 5
  /\ PT.next_milestone (PT._track_milestones 250 200 5) = None
  /\ PT.remaining_milestones (PT._track_milestones 250 200 5) = [].
Proof. apply milestones_towards_lower_target. reflexivity. Defined.

(** ** Comparison with the history *)

Lemma filter_length_impl {A : Type} (f g : A -> bool) (l : list A) :
  (forall x, f x = true -> g x = true) ->
  (length (filter f l) <= length (filter g l))%nat.
Proof.
  intros H. induction l as [|x l IH]; [cbn; lia|].
  cbn [filter]. destruct (f x) eqn:Ef.
  - rewrite (H x Ef). cbn [length]. lia.
  - destruct (g x); cbn [length]; lia.
Qed.





(** ** Nested windows *)

Lemma since_length_mono (history : PT.History) (cutoff1 cutoff2 : Z) :
  (cutoff1 <= cutoff2)%Z ->
  (length (PT.since history cutoff2) <= length (PT.since history cutoff1))%nat.
Proof.
  intros H. unfold PT.since. apply filter_length_impl.
  intros row Hrow. apply Z.leb_le in Hrow. apply Z.leb_le. lia.
Qed.

(** X11: a longer lookback window holds the rows of a shorter one: when the
    window of some number of days has two points or more, every period of
    at least as many days has a trend entry. *)
Theorem trend_of_longer_period (student_t_pvalue : Z -> float -> float)
  (self : PT.t) (now : Z) (history : PT.History)
  (trends : list (string * PT.Trend)) (days : Z)
  (period_name : string) (period_days : Z) :
  PT._analyze_trend student_t_pvalue self now history = Py.Ok trends ->
  (2 <= length (PT.since history (PT.cutoff now days)))%nat ->
  In (period_name, period_days) (PT.lookback_periods self) ->
  (days <= period_days)%Z ->
  Py.dict_get trends period_name <> None.
Proof.
  intros Ht Hlen Hin Hdays. unfold PT._analyze_trend in Ht.
  destruct (analyze_periods_spec student_t_pvalue now history
              (PT.lookback_periods self) []) as (trends' & Heq & Hkeys).
  rewrite Heq in Ht. injection Ht as ->.
  apply Hkeys. right. exists period_days. split; [exact Hin|].
  pose proof (since_length_mono history (PT.cutoff now period_days)
                (PT.cutoff now days)) as Hm.
  unfold PT.cutoff, PT.seconds_per_day in *. lia.
Qed.

(** ** The progress report *)

Lemma dict_set_keys {V : Type} (d : list (string * V)) (k : string) (v : V) :
  NoDup (map fst d) -> NoDup (map fst (Py.dict_set d k v)).
Proof.
  intros H. induction d as [|[k0 w] d IH]; cbn [Py.dict_set map fst].
  - constructor; [intros []|constructor].
  - inversion H as [|? ? Hk0 Hd]; subst.
    destruct (String.eqb k0 k) eqn:E; cbn [map fst].
    + constructor; assumption.
    + constructor; [|apply IH, Hd].
      intros Hin. apply in_map_iff in Hin.
      destruct Hin as ([k1 w1] & Hk1 & Hin1). cbn [fst] in Hk1. subst k1.
      apply in_dict_set in Hin1. destruct Hin1 as [[= -> ->]|Hin1].
      * rewrite String.eqb_refl in E. discriminate E.
      * apply Hk0. change k0 with (fst (k0, w1)). apply in_map, Hin1.
Qed.

(** The loop of [track_progress], the cut-off dates taken as they are
    computed here, raises nothing; it adds the metrics that
    have a column with an observation, each with the milestones from its
    current value to its target, and keeps the metric names apart. *)
Lemma track_metrics_spec (student_t_pvalue : Z -> float -> float)
  (self : PT.t) (now : Z) (current_stats : list (string * Q))
  (historical_data : list (string * list (Z * option Q)))
  (target_metrics : list (string * Q))
  (acc : list (string * PT.ProgressReport)) :
  exists report,
    PT.track_metrics student_t_pvalue self now current_stats historical_data
      target_metrics acc = Py.Ok report
    /\ (forall metric,
          Py.dict_get report metric <> None <->
          Py.dict_get acc metric <> None
          \/ exists current_value column,
               In (metric, current_value) current_stats
               /\ Py.dict_get historical_data metric = Some column
               /\ PT.dropna column <> [])
    /\ (forall metric analysis,
          In (metric, analysis) report ->
          In (metric, analysis) acc
          \/ (In (metric, PT.current_value analysis) current_stats
              /\ PT.target_value analysis = Py.dict_get target_metrics metric
              /\ PT.milestone_progress analysis
                 = PT._track_milestones (PT.current_value analysis)
                     (match Py.dict_get target_metrics metric with
                      | Some target => target
                      | None => PT.current_value analysis * (12 # 10)
                      end)
                     PT.default_num_milestones))
    /\ (NoDup (map fst acc) -> NoDup (map fst report)).
Proof.
  revert acc.
  induction current_stats as [|[metric current_value] rest IH]; intros acc.
  - exists acc. split; [reflexivity|]. split; [|split].
    + intros m. split; [tauto|]. intros [H|(c & col & [] & _)]. exact H.
    + intros m a H. left. exact H.
    + tauto.
  - cbn [PT.track_metrics].
    destruct (Py.dict_get historical_data metric) as [column|] eqn:Ec.
    + destruct (PT.dropna column) as [|row rows] eqn:Ed.
      * destruct (IH acc) as (report & Heq & Hkeys & Hent & Hnd).
        exists report. split; [exact Heq|]. split; [|split].
        -- intros m. rewrite Hkeys. split.
           ++ intros [H|(c & col & Hin & Hcol & Hdrop)]; [left; exact H|].
              right. exists c, col. split; [right; exact Hin|split; assumption].
           ++ intros [H|(c & col & [Hin|Hin] & Hcol & Hdrop)]; [left; exact H| |].
              ** injection Hin as <- <-. rewrite Ec in Hcol.
                 injection Hcol as <-. congruence.
              ** right. exists c, col. split; [exact Hin|split; assumption].
        -- intros m a H. destruct (Hent m a H) as [H'|(H1 & H2 & H3)];
             [left; exact H'|].
           right. split; [right; exact H1|split; assumption].
        -- exact Hnd.
      * unfold PT._analyze_trend.
        destruct (analyze_periods_spec student_t_pvalue now (row :: rows)
                    (PT.lookback_periods self) []) as (trends & -> & _).
        cbn [Py.bind].
        match goal with
        | |- context [Py.dict_set acc metric ?a] =>
            destruct (IH (Py.dict_set acc metric a))
              as (report & Heq & Hkeys & Hent & Hnd)
        end.
        exists report. split; [exact Heq|]. split; [|split].
        -- intros m. rewrite Hkeys, dict_get_set.
           destruct (String.eqb metric m) eqn:Em.
           ++ apply String.eqb_eq in Em. subst m. split; intros _.
              ** right. exists current_value, column.
                 split; [left; reflexivity|]. split; [exact Ec|].
                 rewrite Ed. discriminate.
              ** left. discriminate.
           ++ apply String.eqb_neq in Em. split.
              ** intros [H|(c & col & Hin & Hcol & Hdrop)]; [left; exact H|].
                 right. exists c, col.
                 split; [right; exact Hin|split; assumption].
              ** intros [H|(c & col & [Hin|Hin] & Hcol & Hdrop)];
                   [left; exact H|congruence|].
                 right. exists c, col. split; [exact Hin|split; assumption].
        -- intros m a H. destruct (Hent m a H) as [H'|(H1 & H2 & H3)].
           ++ apply in_dict_set in H'. destruct H' as [[= -> ->]|H'];
                [|left; exact H'].
              right. cbn [PT.current_value PT.target_value
                            PT.milestone_progress].
              split; [left; reflexivity|]. split; reflexivity.
           ++ right. split; [right; exact H1|split; assumption].
        -- intros Hacc. apply Hnd, dict_set_keys, Hacc.
    + destruct (IH acc) as (report & Heq & Hkeys & Hent & Hnd).
      exists report. split; [exact Heq|]. split; [|split].
      * intros m. rewrite Hkeys. split.
        -- intros [H|(c & col & Hin & Hcol & Hdrop)]; [left; exact H|].
           right. exists c, col. split; [right; exact Hin|split; assumption].
        -- intros [H|(c & col & [Hin|Hin] & Hcol & Hdrop)]; [left; exact H| |].
           ++ injection Hin as <- <-. congruence.
           ++ right. exists c, col. split; [exact Hin|split; assumption].
      * intros m a H. destruct (Hent m a H) as [H'|(H1 & H2 & H3)];
          [left; exact H'|].
        right. split; [right; exact H1|split; assumption].
      * exact Hnd.
Qed.

(** C6: for current 50, target 100 and 4 milestones the tracking has the
    milestones 62.5, 75, 87.5 and 100 with progress 25, 50, 75 and 100,
    the first one next and the others remaining.  In general the
    milestones between two different values are [num_milestones] in
    number, of levels 1, 2, ...; their values are the samples that
    [np.linspace] spaces evenly from the current value to the target, the
    first one left out: they lie between the two values, and the last one
    is the target itself, with progress 100; the reached ones are
    completed and the others next and remaining.  In every report of
    [track_progress] the milestones of a metric lead to its target, and to
    1.2 times its current value when the metric has no target. *)
Theorem milestones_interpolated :
  PT._track_milestones 50 100 4
  = {| PT.total_progress := Fin 0;
       PT.next_milestone :=
         Some {| PT.level := 1; PT.value := 125 # 2; PT.progress := Fin 25 |};
       PT.remaining_milestones :=
         [ {| PT.level := 2; PT.value := 75; PT.progress := Fin 50 |};
           {| PT.level := 3; PT.value := 175 # 2; PT.progress := Fin 75 |};
           {| PT.level := 4; PT.value := 100; PT.progress := Fin 100 |} ];
       PT.completed_milestones := [] |}
  /\ (forall current_value target_value num_milestones,
        ~ target_value == current_value ->
        let samples :=
          Numpy.linspace current_value target_value (num_milestones + 1) in
        let milestones :=
          PT.milestones_of current_value target_value samples in
        map PT.level milestones = seq 1 num_milestones
        /\ map PT.value milestones = List.tl samples
        /\ Forall (fun m => between current_value target_value (PT.value m))
             milestones
        /\ ((0 < num_milestones)%nat ->
            exists firsts,
              milestones
              = firsts ++ [{| PT.level := num_milestones;
                              PT.value := target_value;
                              PT.progress := Fin 100 |}])
        /\ PT.completed_milestones
             (PT._track_milestones current_value target_value num_milestones)
           = filter (reached current_value) milestones
        /\ pending
             (PT._track_milestones current_value target_value num_milestones)
           = filter (fun m => negb (reached current_value m)) milestones)
  /\ (forall student_t_pvalue self now current_stats historical_data
        target_metrics report metric analysis,
        PT.track_progress student_t_pvalue self now current_stats
          historical_data target_metrics = Py.Ok report ->
        In (metric, analysis) report ->
        PT.milestone_progress analysis
        = PT._track_milestones (PT.current_value analysis)
            (match Py.dict_get target_metrics metric with
             | Some target => target
             | None => PT.current_value analysis * (12 # 10)
             end)
            PT.default_num_milestones).
Proof.
  split; [vm_compute; reflexivity|]. split.
  - intros c t n Hne. cbv zeta.
    split; [apply milestones_evenly_spaced, Hne|].
    split; [apply milestones_values|].
    split; [apply milestones_between, Hne|].
    split.
    + intros Hn. destruct n as [|k]; [lia|].
      destruct (milestones_last c t k Hne) as (firsts & Heq & _).
      exists firsts. exact Heq.
    + destruct (track_milestones_split c t n Hne) as (_ & H2 & H3).
      split; assumption.
  - intros tt self now cs hd tm report metric analysis Ht Hin.
    unfold PT.track_progress in Ht.
    destruct (track_metrics_spec tt self now cs hd tm [])
      as (report' & Heq & _ & Hent & _).
    rewrite Heq in Ht. injection Ht as ->.
    destruct (Hent metric analysis Hin) as [[]|(_ & _ & Hm)]. exact Hm.
Qed.

Lemma milestones_interpolated_witness :
  map PT.value
    (PT.milestones_of 50 100 (Numpy.linspace 50 100 (4 + 1)))
  = [125 # 2; 75; 175 # 2; 100]
  /\ exists analysis,
       In ("accuracy"%string, analysis) one_observation_report
       /\ PT.milestone_progress analysis
          = PT._track_milestones 50 (50 * (12 # 10)) 5.
Proof.
  split.
  - pose proof (proj1 (proj2 milestones_interpolated) 50 100 4%nat) as H.
    cbv zeta in H. destruct H as (_ & Hv & _); [vm_compute; discriminate|].
    rewrite Hv. vm_compute. reflexivity.
  - assert (H : exists analysis,
               In ("accuracy"%string, analysis) one_observation_report
               /\ PT.current_value analysis = 50)
      by (vm_compute; eexists; split; [left; reflexivity|reflexivity]).
    destruct H as (analysis & Hin & Hc).
    exists analysis. split; [exact Hin|].
    rewrite <- Hc at 1 2.
    apply (proj2 (proj2 milestones_interpolated) (fun _ _ => NaN)
             (PT.init None) today [("accuracy"%string, 50)] one_observation
             [] one_observation_report "accuracy"%string analysis).
    + vm_compute. reflexivity.
    + exact Hin.
Defined.

(** X12: with lookback periods whose cut-off dates exist, [track_progress]
    raises nothing; its report has an entry for a metric exactly when the
    metric is among the current values and has a column with at least one
    observation, every entry carries the target of the metric, if any,
    and no two entries have the same metric. *)
Theorem track_progress_entries (student_t_pvalue : Z -> float -> float)
  (self : PT.t) (now : Z) (current_stats : list (string * Q))
  (historical_data : list (string * list (Z * option Q)))
  (target_metrics : list (string * Q)) :
  lookback_defined self now ->
  exists report,
    PT.track_progress student_t_pvalue self now current_stats historical_data
      target_metrics = Py.Ok report
    /\ (forall metric,
          Py.dict_get report metric <> None <->
          exists current_value column,
            In (metric, current_value) current_stats
            /\ Py.dict_get historical_data metric = Some column
            /\ PT.dropna column <> [])
    /\ (forall metric analysis,
          In (metric, analysis) report ->
          In (metric, PT.current_value analysis) current_stats
          /\ PT.target_value analysis = Py.dict_get target_metrics metric)
    /\ NoDup (map fst report).
Proof.
  intros _. unfold PT.track_progress.
  destruct (track_metrics_spec student_t_pvalue self now current_stats
              historical_data target_metrics [])
    as (report & Heq & Hkeys & Hent & Hnd).
  exists report. split; [exact Heq|]. split; [|split].
  - intros metric. rewrite Hkeys. cbn [Py.dict_get]. split.
    + intros [H|H]; [congruence|exact H].
    + intros H. right. exact H.
  - intros metric analysis H.
    destruct (Hent metric analysis H) as [[]|(H1 & H2 & _)]. split; assumption.
  - apply Hnd. constructor.
Qed.

Lemma track_progress_entries_witness :
  exists report,
    PT.track_progress (fun _ _ => NaN) (PT.init None) today week_current
      week_frame week_targets = Py.Ok report
    /\ Py.dict_get report "teamwork" <> None
    /\ NoDup (map fst report).
Proof.
  destruct (track_progress_entries (fun _ _ => NaN) (PT.init None) today
              week_current week_frame week_targets)
    as (report & Heq & Hkeys & _ & Hnd).
  { unfold lookback_defined. cbn.
    repeat constructor; vm_compute; discriminate. }
  exists report. split; [exact Heq|]. split; [|exact Hnd].
  apply Hkeys. eexists. eexists.
  split; [right; right; left; reflexivity|].
  split; [reflexivity|]. vm_compute. discriminate.
Defined.

(** ** The progress summary *)

(** What the loop of [generate_progress_summary] adds to the four lists. *)
Lemma summarize_fold (progress_report : list (string * PT.ProgressReport))
  (summary : PS.Summary) :
  PS.overall_progress (fold_left PS.summarize_metric progress_report summary)
  = PS.overall_progress summary
  /\ PS.key_improvements
       (fold_left PS.summarize_metric progress_report summary)
     = PS.key_improvements summary
       ++ flat_map
            (fun entry =>
               if (PS.short_term_change (snd entry) >? Fin 5)%float
               then [{| PS.improved_metric := fst entry;
                        PS.improvement := PS.short_term_change (snd entry) |}]
               else [])
            progress_report
  /\ PS.areas_of_concern
       (fold_left PS.summarize_metric progress_report summary)
     = PS.areas_of_concern summary
       ++ flat_map
            (fun entry =>
               if (PS.short_term_change (snd entry) <? Fin (-5))%float
               then [{| PS.concern_metric := fst entry;
                        PS.decline :=
                          fabs (PS.short_term_change (snd entry)) |}]
               else [])
            progress_report
  /\ PS.recent_milestones
       (fold_left PS.summarize_metric progress_report summary)
     = PS.recent_milestones summary
       ++ flat_map
            (fun entry =>
               match rev (PT.completed_milestones
                            (PT.milestone_progress (snd entry))) with
               | latest :: _ =>
                   [{| PS.milestone_metric := fst entry;
                       PS.milestone_level := PT.level latest;
                       PS.milestone_value := PT.value latest |}]
               | [] => []
               end)
            progress_report
  /\ PS.next_targets
       (fold_left PS.summarize_metric progress_report summary)
     = PS.next_targets summary
       ++ flat_map
            (fun entry =>
               match PT.next_milestone (PT.milestone_progress (snd entry)) with
               | Some next =>
                   [{| PS.target_metric := fst entry;
                       PS.target := PT.value next;
                       PS.target_progress := PT.progress next |}]
               | None => []
               end)
            progress_report.
Proof.
  revert summary.
  induction progress_report as [|[metric analysis] rest IH]; intros summary.
  - cbn. rewrite !app_nil_r. repeat split; reflexivity.
  - cbn [fold_left flat_map fst snd].
    destruct (IH (PS.summarize_metric summary (metric, analysis)))
      as (H0 & H1 & H2 & H3 & H4).
    rewrite H0, H1, H2, H3, H4. unfold PS.summarize_metric.
    cbn [PS.overall_progress PS.key_improvements PS.areas_of_concern
           PS.recent_milestones PS.next_targets].
    split; [reflexivity|].
    split; [destruct (PS.short_term_change analysis >? Fin 5)%float;
            rewrite <- ?app_assoc, ?app_nil_r; reflexivity|].
    split; [destruct (PS.short_term_change analysis <? Fin (-5))%float;
            rewrite <- ?app_assoc, ?app_nil_r; reflexivity|].
    split; [destruct (rev (PT.completed_milestones
                             (PT.milestone_progress analysis)));
            rewrite <- ?app_assoc, ?app_nil_r; reflexivity|].
    destruct (PT.next_milestone (PT.milestone_progress analysis));
      rewrite <- ?app_assoc, ?app_nil_r; reflexivity.
Qed.

Lemma decline_above_five (x : float) :
  (x <? Fin (-5))%float = true -> (fabs x >? Fin 5)%float = true.
Proof.
  unfold fgt. destruct x as [c| | |]; cbn [flt fabs]; try discriminate.
  - intros H. apply Qltb_lt in H. unfold fin. cbn [flt]. apply Qltb_lt.
    rewrite Qred_correct, Qabs_neg by lra. lra.
  - reflexivity.
Qed.

(** X13: in a summary that [generate_progress_summary] returns, the overall
    progress lies between 0 and 100, every key improvement is a change
    above 5 and every area of concern a decline above 5, given as a
    positive number. *)
Theorem summary_thresholds
  (progress_report : list (string * PT.ProgressReport))
  (summary : PS.Summary) :
  PS.generate_progress_summary progress_report = Py.Ok summary ->
  in_range 0 100 (PS.overall_progress summary)
  /\ Forall (fun k => (PS.improvement k >? Fin 5)%float = true)
       (PS.key_improvements summary)
  /\ Forall (fun c => (PS.decline c >? Fin 5)%float = true)
       (PS.areas_of_concern summary).
Proof.
  unfold PS.generate_progress_summary.
  destruct (PT._calculate_overall_progress progress_report) as [overall|e]
    eqn:Eo; cbn [Py.bind]; [|discriminate].
  intros [= <-].
  match goal with
  | |- context [fold_left _ _ ?s0] =>
      destruct (summarize_fold progress_report s0) as (H0 & H1 & H2 & _)
  end.
  rewrite H0, H1, H2.
  cbn [PS.overall_progress PS.key_improvements PS.areas_of_concern app].
  split; [apply (overall_progress_in_range _ _ Eo)|]. split.
  - apply Forall_forall. intros k Hk. apply in_flat_map in Hk.
    destruct Hk as (entry & _ & Hk).
    destruct (PS.short_term_change (snd entry) >? Fin 5)%float eqn:E;
      [|destruct Hk].
    destruct Hk as [<-|[]]. exact E.
  - apply Forall_forall. intros c Hc. apply in_flat_map in Hc.
    destruct Hc as (entry & _ & Hc).
    destruct (PS.short_term_change (snd entry) <? Fin (-5))%float eqn:E;
      [|destruct Hc].
    destruct Hc as [<-|[]]. apply decline_above_five, E.
Qed.

Lemma dict_entry_unique {V : Type} (d : list (string * V)) (k : string)
  (v w : V) :
  NoDup (map fst d) -> In (k, v) d -> In (k, w) d -> v = w.
Proof.
  intros Hnd. induction d as [|[k0 u] d IH]; intros Hv Hw; [destruct Hv|].
  cbn [map fst] in Hnd. inversion Hnd as [|? ? Hk0 Hd]; subst.
  destruct Hv as [Hv|Hv], Hw as [Hw|Hw].
  - congruence.
  - injection Hv as -> ->. exfalso. apply Hk0.
    change k with (fst (k, w)). apply in_map, Hw.
  - injection Hw as -> ->. exfalso. apply Hk0.
    change k with (fst (k, v)). apply in_map, Hv.
  - apply IH; assumption.
Qed.

Lemma not_above_and_below (x : float) :
  (x >? Fin 5)%float = true -> (x <? Fin (-5))%float = true -> False.
Proof.
  unfold fgt. destruct x as [c| | |]; cbn [flt]; try discriminate.
  intros H1 H2. apply Qltb_lt in H1, H2. lra.
Qed.

(** X14: in a summary of a report (a dict: the metric names differ) no
    metric is both a key improvement and an area of concern. *)
Theorem summary_improvement_or_concern
  (progress_report : list (string * PT.ProgressReport))
  (summary : PS.Summary) (metric : string) :
  NoDup (map fst progress_report) ->
  PS.generate_progress_summary progress_report = Py.Ok summary ->
  In metric (map PS.improved_metric (PS.key_improvements summary)) ->
  ~ In metric (map PS.concern_metric (PS.areas_of_concern summary)).
Proof.
  intros Hnd. unfold PS.generate_progress_summary.
  destruct (PT._calculate_overall_progress progress_report) as [overall|e];
    cbn [Py.bind]; [|discriminate].
  intros [= <-].
  match goal with
  | |- context [fold_left _ _ ?s0] =>
      destruct (summarize_fold progress_report s0) as (_ & H1 & H2 & _)
  end.
  rewrite H1, H2. cbn [PS.key_improvements PS.areas_of_concern app].
  intros Hk Hc. apply in_map_iff in Hk, Hc.
  destruct Hk as (k & <- & Hk). destruct Hc as (c & Hcm & Hc).
  apply in_flat_map in Hk, Hc.
  destruct Hk as ([m1 a1] & Hin1 & Hk). destruct Hc as ([m2 a2] & Hin2 & Hc).
  cbn [fst snd] in Hk, Hc.
  destruct (PS.short_term_change a1 >? Fin 5)%float eqn:E1; [|destruct Hk].
  destruct (PS.short_term_change a2 <? Fin (-5))%float eqn:E2; [|destruct Hc].
  destruct Hk as [<-|[]]. destruct Hc as [<-|[]].
  cbn [PS.improved_metric PS.concern_metric] in Hcm. subst m2.
  rewrite (dict_entry_unique _ _ _ _ Hnd Hin2 Hin1) in E2.
  exact (not_above_and_below _ E1 E2).
Qed.

(** ** Suggestions *)

Lemma below_minus_five_below_zero (x : float) :
  (x <? Fin (-5))%float = true -> (x <? Fin 0)%float = true.
Proof.
  destruct x as [c| | |]; cbn [flt]; try discriminate; [|reflexivity].
  intros H. apply Qltb_lt in H. apply Qltb_lt. lra.
Qed.

(** X15: every area of concern of the summary of a report has a suggestion
    of high priority among the suggestions for the report. *)
Theorem concern_has_high_priority_suggestion
  (progress_report : list (string * PT.ProgressReport))
  (player_preferences : option (list (string * string)))
  (summary : PS.Summary) (c : PS.Concern) :
  PS.generate_progress_summary progress_report = Py.Ok summary ->
  In c (PS.areas_of_concern summary) ->
  exists s,
    In s (PS.get_improvement_suggestions progress_report player_preferences)
    /\ PS.metric s = PS.concern_metric c
    /\ PS.priority s = PS.high.
Proof.
  unfold PS.generate_progress_summary.
  destruct (PT._calculate_overall_progress progress_report) as [overall|e];
    cbn [Py.bind]; [|discriminate].
  intros [= <-].
  match goal with
  | |- context [fold_left _ _ ?s0] =>
      destruct (summarize_fold progress_report s0) as (_ & _ & H2 & _)
  end.
  rewrite H2. cbn [PS.areas_of_concern app]. intros Hc.
  apply in_flat_map in Hc. destruct Hc as ([metric analysis] & Hin & Hc).
  cbn [fst snd] in Hc.
  destruct (PS.short_term_change analysis <? Fin (-5))%float eqn:E;
    [|destruct Hc].
  destruct Hc as [<-|[]]. cbn [PS.concern_metric].
  eexists. split; [|split].
  - unfold PS.get_improvement_suggestions. apply sort_reverse_In.
    apply in_flat_map. exists (metric, analysis). split; [exact Hin|].
    rewrite (below_minus_five_below_zero _ E). cbn [orb].
    left. reflexivity.
  - reflexivity.
  - cbn [PS.priority]. now rewrite E.
Qed.

(** X16: [get_improvement_suggestions] lists the high priorities first and
    the medium ones last; a suggestion is for a metric of the report whose
    short-term change is negative or whose short-term trend declines, and
    its priority is high exactly when the change is below -5. *)
Theorem suggestions_high_first
  (progress_report : list (string * PT.ProgressReport))
  (player_preferences : option (list (string * string))) :
  (exists highs mediums,
      PS.get_improvement_suggestions progress_report player_preferences
      = highs ++ mediums
      /\ Forall (fun s => PS.priority s = PS.high) highs
      /\ Forall (fun s => PS.priority s = PS.medium) mediums)
  /\ (forall s,
        In s (PS.get_improvement_suggestions progress_report
                player_preferences) ->
        exists analysis,
          In (PS.metric s, analysis) progress_report
          /\ ((PS.short_term_change analysis <? Fin 0)%float = true
              \/ PS.short_term_declining analysis = true)
          /\ (PS.priority s = PS.high <->
              (PS.short_term_change analysis <? Fin (-5))%float = true)).
Proof.
  unfold PS.get_improvement_suggestions. split.
  - rewrite sort_reverse_partition. eexists _, _. split; [reflexivity|].
    split; apply Forall_forall; intros s Hs; apply filter_In in Hs;
      destruct Hs as [_ Hs]; destruct (PS.priority s);
      cbn in Hs; congruence.
  - intros s Hs. apply sort_reverse_In, in_flat_map in Hs.
    destruct Hs as ([metric analysis] & Hin & Hs).
    destruct ((PS.short_term_change analysis <? Fin 0)%float
              || PS.short_term_declining analysis) eqn:E; [|destruct Hs].
    destruct Hs as [<-|[]]. cbn [PS.metric PS.priority].
    exists analysis. split; [exact Hin|]. split.
    + apply orb_true_iff in E. exact E.
    + destruct (PS.short_term_change analysis <? Fin (-5))%float;
        split; congruence.
Qed.

(** X17: a metric that [track_progress] tracks towards a target below its
    current value appears in the summary with the target itself as its
    recent milestone, at the last level, and with no next target. *)
Theorem tracked_lower_target (student_t_pvalue : Z -> float -> float)
  (self : PT.t) (now : Z) (current_stats : list (string * Q))
  (historical_data : list (string * list (Z * option Q)))
  (target_metrics : list (string * Q))
  (report : list (string * PT.ProgressReport)) (summary : PS.Summary)
  (metric : string) (analysis : PT.ProgressReport) (target : Q) :
  PT.track_progress student_t_pvalue self now current_stats historical_data
    target_metrics = Py.Ok report ->
  PS.generate_progress_summary report = Py.Ok summary ->
  In (metric, analysis) report ->
  Py.dict_get target_metrics metric = Some target ->
  target < PT.current_value analysis ->
  In {| PS.milestone_metric := metric;
        PS.milestone_level := PT.default_num_milestones;
        PS.milestone_value := target |}
    (PS.recent_milestones summary)
  /\ ~ In metric (map PS.target_metric (PS.next_targets summary)).
Proof.
  intros Ht. unfold PT.track_progress in Ht.
  destruct (track_metrics_spec student_t_pvalue self now current_stats
              historical_data target_metrics [])
    as (report' & Heq & _ & Hent & Hnd).
  rewrite Heq in Ht. injection Ht as ->.
  specialize (Hnd ltac:(constructor)).
  unfold PS.generate_progress_summary.
  destruct (PT._calculate_overall_progress report) as [overall|e];
    cbn [Py.bind]; [|discriminate].
  intros [= <-] Hin Htarget Hlt.
  match goal with
  | |- context [fold_left _ _ ?s0] =>
      destruct (summarize_fold report s0) as (_ & _ & _ & H3 & H4)
  end.
  rewrite H3, H4. cbn [PS.recent_milestones PS.next_targets app].
  destruct (Hent metric analysis Hin) as [[]|(_ & _ & Hm)].
  rewrite Htarget in Hm.
  assert (Hne : ~ target == PT.current_value analysis) by lra.
  destruct (track_milestones_split (PT.current_value analysis) target
              PT.default_num_milestones Hne) as (_ & H2 & H5).
  pose proof (milestones_reached (PT.current_value analysis) target
                PT.default_num_milestones Hlt) as Hre.
  rewrite filter_all in H2 by exact Hre.
  rewrite filter_none in H5
    by (eapply Forall_impl; [|exact Hre]; intros m ->; reflexivity).
  destruct (milestones_last (PT.current_value analysis) target 4 Hne)
    as (firsts & Hms & _).
  change (4 + 1)%nat with (PT.default_num_milestones + 1)%nat in Hms.
  change (S 4) with PT.default_num_milestones in Hms.
  split.
  - apply in_flat_map. exists (metric, analysis). split; [exact Hin|].
    cbn [fst snd]. rewrite Hm, H2, Hms, rev_app_distr. cbn [rev app].
    left. reflexivity.
  - intros Hn. apply in_map_iff in Hn. destruct Hn as (t & Htm & Hn).
    apply in_flat_map in Hn. destruct Hn as ([m2 a2] & Hin2 & Hn).
    cbn [fst snd] in Hn.
    destruct (PT.next_milestone (PT.milestone_progress a2)) as [next|] eqn:En;
      [|destruct Hn].
    destruct Hn as [<-|[]]. cbn [PS.target_metric] in Htm. subst m2.
    rewrite (dict_entry_unique _ _ _ _ Hnd Hin2 Hin), Hm in En.
    unfold pending in H5. rewrite En in H5. discriminate H5.
Qed.

(** X18: a period whose consistency is below 70 is named both among the
    focus areas and among the training adjustments of the metric. *)
Theorem inconsistent_period_in_both_lists (analysis : PT.ProgressReport)
  (player_preferences : option (list (string * string)))
  (period : string) (rate : PT.ImprovementRate) :
  In (period, rate) (PT.improvement_rate analysis) ->
  (PT.consistency rate <? Fin 70)%float = true ->
  In ("Improve consistency in " ++ period ++ " performance")%string
    (PS._identify_focus_areas analysis)
  /\ In ("Increase practice frequency in " ++ period
         ++ " to improve consistency")%string
       (PS._suggest_training_adjustments analysis player_preferences).
Proof.
  intros Hin Hc. unfold PS._identify_focus_areas,
    PS._suggest_training_adjustments.
  split; apply in_or_app; left; apply in_flat_map;
    exists (period, rate); (split; [exact Hin|]);
    rewrite Hc; left; reflexivity.
Qed.

(** X19: [generate_progress_summary] raises [ValueError] when a metric of
    the report has no trend entry, and returns a summary when every
    metric has one (and on the empty report). *)
Theorem summary_raises_without_trend
  (progress_report : list (string * PT.ProgressReport)) :
  ((exists metric analysis,
       In (metric, analysis) progress_report
       /\ PT.trend_analysis analysis = []) ->
   PS.generate_progress_summary progress_report = Py.Raise Py.ValueError)
  /\ (Forall (fun analysis => PT.trend_analysis analysis <> [])
        (Py.dict_values progress_report) ->
      exists summary,
        PS.generate_progress_summary progress_report = Py.Ok summary).
Proof.
  unfold PS.generate_progress_summary, PT._calculate_overall_progress.
  split.
  - intros (metric & analysis & Hin & Hnil).
    destruct progress_report as [|entry rest]; [destruct Hin|].
    rewrite (progress_scores_of_no_trend _ [] analysis);
      [reflexivity| |exact Hnil].
    unfold Py.dict_values. change analysis with (snd (metric, analysis)).
    apply in_map, Hin.
  - intros Hall. destruct progress_report as [|entry rest].
    + eexists. reflexivity.
    + rewrite (progress_scores_of_trends _ [] Hall). cbn [Py.bind].
      eexists. reflexivity.
Qed.

Lemma summary_raises_without_trend_witness :
  PS.generate_progress_summary one_observation_report
  = Py.Raise Py.ValueError
  /\ exists summary, PS.generate_progress_summary week_report = Py.Ok summary.
Proof.
  split.
  - apply (proj1 (summary_raises_without_trend one_observation_report)).
    eexists _, _. split; [left; reflexivity|reflexivity].
  - apply (proj2 (summary_raises_without_trend week_report)).
    unfold Py.dict_values. vm_compute.
    repeat constructor; discriminate.
Defined.

(** ** The properties at the observations of a week *)

Lemma reaction_time_never_high_witness :
  PerformanceAnalyzer.analyze_performance (fun _ _ => NaN) (init None)
    slowing_frame = Py.Ok slowing_analysis
  /\ map (fun r => (PR.metric r, PR.priority r))
       (PR.generate_recommendations slowing_analysis)
     = [("accuracy"%string, PR.high); ("reaction_time"%string, PR.medium)]
  /\ exists r,
       nth_error (PR.generate_recommendations slowing_analysis) 1 = Some r
       /\ PR.metric r = "reaction_time"%string
       /\ PR.priority r = PR.medium.
Proof.
  split; [compute_eq|]. split; [compute_eq|].
  assert (H : exists r,
             nth_error (PR.generate_recommendations slowing_analysis) 1
             = Some r
             /\ PR.metric r = "reaction_time"%string)
    by (vm_compute; eexists; split; reflexivity).
  destruct H as (r & Hn & Hm). exists r.
  split; [exact Hn|]. split; [exact Hm|].
  apply (reaction_time_never_high (fun _ _ => NaN) (init None) slowing_frame
           slowing_analysis r).
  - compute_eq.
  - eapply nth_error_In, Hn.
  - exact Hm.
Defined.

Lemma trend_of_longer_period_witness :
  Py.dict_get week_trends "long_term" <> None.
Proof.
  apply (trend_of_longer_period (fun _ _ => NaN) (PT.init None) today
           week_history week_trends 7 "long_term" 90).
  - compute_eq.
  - vm_compute. lia.
  - cbn. tauto.
  - lia.
Defined.

Lemma summary_thresholds_witness :
  in_range 0 100 (PS.overall_progress week_summary)
  /\ Forall (fun k => (PS.improvement k >? Fin 5)%float = true)
       (PS.key_improvements week_summary)
  /\ Forall (fun c => (PS.decline c >? Fin 5)%float = true)
       (PS.areas_of_concern week_summary).
Proof. apply (summary_thresholds week_report). compute_eq. Defined.

Lemma week_report_keys : NoDup (map fst week_report).
Proof.
  vm_compute. repeat constructor; cbn; intuition discriminate.
Qed.

Lemma summary_improvement_or_concern_witness :
  In "accuracy"%string
    (map PS.improved_metric (PS.key_improvements week_summary))
  /\ ~ In "accuracy"%string
         (map PS.concern_metric (PS.areas_of_concern week_summary)).
Proof.
  split; [left; reflexivity|].
  apply (summary_improvement_or_concern week_report week_summary).
  - exact week_report_keys.
  - compute_eq.
  - left. reflexivity.
Defined.

Lemma concern_has_high_priority_suggestion_witness :
  exists s,
    In s (PS.get_improvement_suggestions week_report None)
    /\ PS.metric s = "teamwork"%string
    /\ PS.priority s = PS.high.
Proof.
  apply (concern_has_high_priority_suggestion week_report None week_summary
           {| PS.concern_metric := "teamwork"; PS.decline := Fin (300 # 13) |}).
  - compute_eq.
  - left. reflexivity.
Defined.

Lemma tracked_lower_target_witness :
  In {| PS.milestone_metric := "reaction_time";
        PS.milestone_level := 5;
        PS.milestone_value := 200 |}
    (PS.recent_milestones week_summary)
  /\ ~ In "reaction_time"%string
         (map PS.target_metric (PS.next_targets week_summary)).
Proof.
  assert (H : exists analysis,
             In ("reaction_time"%string, analysis) week_report
             /\ PT.current_value analysis = 250)
    by (vm_compute; eexists; split;
        [right; left; reflexivity|reflexivity]).
  destruct H as (analysis & Hin & Hc).
  apply (tracked_lower_target (fun _ _ => NaN) (PT.init None) today
           week_current week_frame week_targets week_report week_summary
           "reaction_time" analysis 200).
  - compute_eq.
  - compute_eq.
  - exact Hin.
  - reflexivity.
  - rewrite Hc. reflexivity.
Defined.

Lemma inconsistent_period_in_both_lists_witness :
  In "Improve consistency in short_term performance"%string
    (PS._identify_focus_areas erratic_analysis)
  /\ In "Increase practice frequency in short_term to improve consistency"%string
       (PS._suggest_training_adjustments erratic_analysis None).
Proof.
  assert (H : exists rate,
             In ("short_term"%string, rate)
               (PT.improvement_rate erratic_analysis)
             /\ (PT.consistency rate <? Fin 70)%float = true)
    by (vm_compute; eexists; split; [left; reflexivity|reflexivity]).
  destruct H as (rate & Hin & Hc).
  apply (inconsistent_period_in_both_lists erratic_analysis None
           "short_term" rate Hin Hc).
Defined.
